(** * github-mcp-server: request validation and capability filtering

    A shallow embedding of [pkg/github/server.go]: the typed accessors that
    read a tool call's argument map ([requiredParam], [requiredInt],
    [optionalParam], [optionalIntParam], [optionalIntParamWithDefault],
    [optionalStringArrayParam]) and the tool registration performed by
    [NewServer] under the include/exclude lists and the read-only flag. *)

From Stdlib Require Import ZArith List Bool Ascii Lia.
From Stdlib Require Import Floats.PrimFloat Floats.SpecFloat Floats.FloatOps.
From Stdlib Require Floats.FloatAxioms.
From stdpp Require Import base option gmap strings list.

Local Open Scope string_scope.
Local Open Scope list_scope.
Local Open Scope Z_scope.

(** ** Go values held in an [interface{}] *)

(** Go's [float64]: an IEEE-754 binary64 number. *)
Abbreviation float64 := PrimFloat.float (only parsing).

(** The dynamic values an argument map can hold.  JSON decoding produces
    [nil], [bool], [float64], [string], [[]interface{}] and
    [map[string]interface{}]; a caller building the request in Go can also
    store a native [[]string], which [optionalStringArrayParam] handles. *)
#[local] Set Warnings "-register-all".
Inductive value : Type :=
| VNil
| VString (s : string)
| VNumber (f : float64)
| VBool (b : bool)
| VStrings (l : list string)
| VArray (l : list value)
| VObject (m : list (string * value)).

(** What [%T] prints for a dynamic value. *)
Definition dynType (v : value) : string :=
  match v with
  | VNil => "<nil>"
  | VString _ => "string"
  | VNumber _ => "float64"
  | VBool _ => "bool"
  | VStrings _ => "[]string"
  | VArray _ => "[]interface {}"
  | VObject _ => "map[string]interface {}"
  end.

(** [mcp.CallToolRequest], reduced to the field the accessors read:
    [r.Params.Arguments]. *)
Record CallToolParams := { Arguments : gmap string value }.
Record CallToolRequest := { Params : CallToolParams }.

Definition requestOf (bag : gmap string value) : CallToolRequest :=
  {| Params := {| Arguments := bag |} |}.

(** ** Errors *)

(** The errors the accessors build with [fmt.Errorf], one constructor per
    format string; [Error] renders the message. *)
Inductive error : Type :=
| errMissingRequired (p : string)
| errNotOfType (p ty : string)
| errNotOfTypeIs (p ty got : string)
| errNotCoerced (p got : string).

Definition Error (e : error) : string :=
  match e with
  | errMissingRequired p => "missing required parameter: " +:+ p
  | errNotOfType p ty => "parameter " +:+ p +:+ " is not of type " +:+ ty
  | errNotOfTypeIs p ty got =>
      "parameter " +:+ p +:+ " is not of type " +:+ ty +:+ ", is " +:+ got
  | errNotCoerced p got =>
      "parameter " +:+ p +:+ " could not be coerced to []string, is " +:+ got
  end.

(** The two classes of extraction failure. *)
Inductive ErrorKind : Type := MissingParameter | TypeMismatch.

Definition errKind (e : error) : ErrorKind :=
  match e with
  | errMissingRequired _ => MissingParameter
  | errNotOfType _ _ | errNotOfTypeIs _ _ _ | errNotCoerced _ _ => TypeMismatch
  end.

(** A Go result pair [(T, error)]: the second component is [None] for a
    [nil] error. *)
Definition fails_with {T : Type} (r : T * option error) (k : ErrorKind) : Prop :=
  match r.2 with
  | Some e => errKind e = k
  | None => False
  end.

Definition succeeds_with {T : Type} (r : T * option error) (x : T) : Prop :=
  r = (x, None).

(** ** Type parameters *)

(** What the generic accessors use of their type parameter [T]: its zero
    value, its name under [%T], and the type assertion [v.(T)] on a dynamic
    value. [inject] stores a [T] in an [interface{}]. *)
Class GoType (T : Type) := {
  zero : T;
  typeName : string;
  inject : T -> value;
  assertT : value -> option T;
  assertT_inject : forall x, assertT (inject x) = Some x;
  assertT_Some : forall v x, assertT v = Some x -> v = inject x;
  dynType_inject : forall x, dynType (inject x) = typeName
}.

(** The constraint [comparable]: Go's [==] on [T]. *)
Class GoComparable (T : Type) `{GoType T} := { goEq : T -> T -> bool }.

#[export, refine] Instance string_GoType : GoType string := {|
  zero := "";
  typeName := "string";
  inject := VString;
  assertT v := match v with VString s => Some s | _ => None end
|}.
Proof.
  - reflexivity.
  - intros [] x; intros [= ->]; reflexivity.
  - reflexivity.
Defined.

#[export, refine] Instance float64_GoType : GoType float64 := {|
  zero := 0%float;
  typeName := "float64";
  inject := VNumber;
  assertT v := match v with VNumber f => Some f | _ => None end
|}.
Proof.
  - reflexivity.
  - intros [] x; intros [= ->]; reflexivity.
  - reflexivity.
Defined.

#[export, refine] Instance bool_GoType : GoType bool := {|
  zero := false;
  typeName := "bool";
  inject := VBool;
  assertT v := match v with VBool b => Some b | _ => None end
|}.
Proof.
  - reflexivity.
  - intros [] x; intros [= ->]; reflexivity.
  - reflexivity.
Defined.

#[export] Instance string_GoComparable : GoComparable string :=
  {| goEq := String.eqb |}.
(** [==] on [float64] is IEEE equality: [-0 == 0], and [NaN] equals nothing. *)
#[export] Instance float64_GoComparable : GoComparable float64 :=
  {| goEq := PrimFloat.eqb |}.
#[export] Instance bool_GoComparable : GoComparable bool :=
  {| goEq := Bool.eqb |}.

(** ** Conversion of [float64] to [int] *)

(** The integer part of a finite number, the fraction discarded (towards
    zero); [None] for infinities and NaN. *)
Definition truncate (f : float64) : option Z :=
  match Prim2SF f with
  | S754_zero _ => Some 0
  | S754_finite s m e =>
      let mag := Z.shiftl (Z.pos m) e in
      Some (if s then - mag else mag)
  | S754_infinity _ | S754_nan => None
  end.

(** Go's [int] on the 64-bit platforms the server is built for. *)
Definition minInt : Z := - 2 ^ 63.
Definition maxInt : Z := 2 ^ 63 - 1.

(** The conversion [int(v)].  Where the integer part does not fit, Go leaves
    the result to the implementation; amd64 yields [minInt]. *)
Definition int_of_float64 (v : float64) : Z :=
  match truncate v with
  | Some z => if (minInt <=? z) && (z <=? maxInt) then z else minInt
  | None => minInt
  end.

(** ** Parameter accessors *)

Definition requiredParam {T : Type} `{GoComparable T}
    (r : CallToolRequest) (p : string) : T * option error :=
  match Arguments (Params r) !! p with
  | None => (zero, Some (errMissingRequired p))
  | Some v =>
      match assertT v with
      | None => (zero, Some (errNotOfType p typeName))
      | Some x =>
          if goEq x zero then (zero, Some (errMissingRequired p))
          else (x, None)
      end
  end.

Definition requiredInt (r : CallToolRequest) (p : string) : Z * option error :=
  match requiredParam (T := float64) r p with
  | (_, Some err) => (0, Some err)
  | (v, None) => (int_of_float64 v, None)
  end.

Definition optionalParam {T : Type} `{GoType T}
    (r : CallToolRequest) (p : string) : T * option error :=
  match Arguments (Params r) !! p with
  | None => (zero, None)
  | Some v =>
      match assertT v with
      | None => (zero, Some (errNotOfTypeIs p typeName (dynType v)))
      | Some x => (x, None)
      end
  end.

Definition optionalIntParam (r : CallToolRequest) (p : string) : Z * option error :=
  match optionalParam (T := float64) r p with
  | (_, Some err) => (0, Some err)
  | (v, None) => (int_of_float64 v, None)
  end.

Definition optionalIntParamWithDefault (r : CallToolRequest) (p : string) (d : Z)
    : Z * option error :=
  match optionalIntParam r p with
  | (_, Some err) => (0, Some err)
  | (v, None) => if v =? 0 then (d, None) else (v, None)
  end.

(** The loop of the [[]any] case: [strSlice] has been made with the length
    of the whole array, [i] is the index of the head of [vs]. *)
Fixpoint coerceElements (p : string) (vs : list value) (i : nat)
    (strSlice : list string) : list string * option error :=
  match vs with
  | [] => (strSlice, None)
  | v :: vs' =>
      match v with
      | VString s => coerceElements p vs' (S i) (<[i := s]> strSlice)
      | _ => ([], Some (errNotOfTypeIs p "string" (dynType v)))
      end
  end.

Definition optionalStringArrayParam (r : CallToolRequest) (p : string)
    : list string * option error :=
  match Arguments (Params r) !! p with
  | None => ([], None)
  | Some (VStrings v) => (v, None)
  | Some (VArray v) => coerceElements p v 0%nat (replicate (length v) "")
  | Some v => ([], Some (errNotCoerced p (dynType v)))
  end.

(** ** Vocabulary for the statements about the accessors *)

(** [present r p v]: the argument map of [r] holds [v] at [p];
    [absent r p]: it has no entry at [p]. *)
Definition present (r : CallToolRequest) (p : string) (v : value) : Prop :=
  Arguments (Params r) !! p = Some v.
Definition absent (r : CallToolRequest) (p : string) : Prop :=
  Arguments (Params r) !! p = None.

Definition isNumber (v : value) : bool :=
  match v with VNumber _ => true | _ => false end.
Definition isString (v : value) : bool :=
  match v with VString _ => true | _ => false end.

(** ** The tool registry *)

(** The tool constructors [NewServer] calls, by their Go names.  Each
    returns an [mcp.Tool] and its handler; registration reads only the
    tool's [Name]. *)
Inductive Operation : Type :=
| getIssue | searchIssues | listIssues
| createIssue | addIssueComment | updateIssue
| getPullRequest | listPullRequests | getPullRequestFiles
| getPullRequestStatus | getPullRequestComments | getPullRequestReviews
| mergePullRequest | updatePullRequestBranch | createPullRequestReview
| createPullRequest
| searchRepositories | getFileContents | listCommits
| createOrUpdateFile | createRepository | forkRepository | createBranch
| pushFiles
| searchCode | searchUsers
| getMe
| getCodeScanningAlert | listCodeScanningAlerts.

#[export] Instance Operation_eq_dec : EqDecision Operation.
Proof. solve_decision. Defined.

(** The resource templates, always registered. *)
Inductive ResourceTemplate : Type :=
| getRepositoryResourceContent
| getRepositoryResourceBranchContent
| getRepositoryResourceCommitContent
| getRepositoryResourceTagContent
| getRepositoryResourcePrContent.

(** [tool.Name].  [getMe] is defined in this file and names its tool
    [get_me]; the other constructors live in sibling files, so their names
    are a parameter [otherNames]. *)
Definition Name (otherNames : Operation -> string) (tool : Operation) : string :=
  match tool with
  | getMe => "get_me"
  | _ => otherNames tool
  end.

(** [server.MCPServer] as the registry sees it: what has been registered,
    in the order of the [AddResourceTemplate] and [AddTool] calls. *)
Record MCPServer := {
  serverName : string;
  serverVersion : string;
  resourceTemplates : list ResourceTemplate;
  tools : list Operation
}.

Definition NewMCPServer (name version : string) : MCPServer :=
  {| serverName := name; serverVersion := version;
     resourceTemplates := []; tools := [] |}.

Definition AddResourceTemplate (t : ResourceTemplate) (s : MCPServer) : MCPServer :=
  {| serverName := serverName s; serverVersion := serverVersion s;
     resourceTemplates := resourceTemplates s ++ [t]; tools := tools s |}.

Definition AddTool (tool : Operation) (s : MCPServer) : MCPServer :=
  {| serverName := serverName s; serverVersion := serverVersion s;
     resourceTemplates := resourceTemplates s; tools := tools s ++ [tool] |}.

(** [strings.Split(s, sep)] for a one-byte separator. *)
Fixpoint Split (s : string) (sep : Ascii.ascii) : list string :=
  match s with
  | EmptyString => [EmptyString]
  | String c s' =>
      if Ascii.eqb c sep then EmptyString :: Split s' sep
      else match Split s' sep with
           | [] => [String c EmptyString]
           | h :: t => String c h :: t
           end
  end.

(** The two "Parse tool lists" loops of [NewServer]: a [map[string]bool]
    holding [true] at every trimmed entry of the comma-separated list.
    [TrimSpace] stands for [strings.TrimSpace]. *)
Definition parseToolList (TrimSpace : string -> string) (toolList : string)
    : gmap string bool :=
  if String.eqb toolList "" then ∅
  else foldl (fun list tool => <[TrimSpace tool := true]> list) ∅
             (Split toolList ","%char).

(** Indexing a [map[string]bool]: the zero value [false] at a missing key. *)
Definition index (m : gmap string bool) (k : string) : bool :=
  default false (m !! k).

Definition shouldIncludeTool (excludeList includeList : gmap string bool)
    (toolName : string) : bool :=
  if (0 <? size includeList)%nat then index includeList toolName
  else negb (index excludeList toolName).

Definition addToolIfIncluded (excludeList includeList : gmap string bool)
    (otherNames : Operation -> string) (tool : Operation) (s : MCPServer)
    : MCPServer :=
  if shouldIncludeTool excludeList includeList (Name otherNames tool)
  then AddTool tool s
  else s.

Definition NewServer (TrimSpace : string -> string)
    (otherNames : Operation -> string)
    (readOnly : bool) (excludeTools includeTools : string) : MCPServer :=
  let s := NewMCPServer "github-mcp-server" "0.0.1" in
  let excludeList := parseToolList TrimSpace excludeTools in
  let includeList := parseToolList TrimSpace includeTools in
  let add := addToolIfIncluded excludeList includeList otherNames in
  (* resources *)
  let s := AddResourceTemplate getRepositoryResourceContent s in
  let s := AddResourceTemplate getRepositoryResourceBranchContent s in
  let s := AddResourceTemplate getRepositoryResourceCommitContent s in
  let s := AddResourceTemplate getRepositoryResourceTagContent s in
  let s := AddResourceTemplate getRepositoryResourcePrContent s in
  (* issues *)
  let s := add getIssue s in
  let s := add searchIssues s in
  let s := add listIssues s in
  let s :=
    if negb readOnly then
      let s := add createIssue s in
      let s := add addIssueComment s in
      let s := add updateIssue s in
      s
    else s in
  (* pull requests *)
  let s := add getPullRequest s in
  let s := add listPullRequests s in
  let s := add getPullRequestFiles s in
  let s := add getPullRequestStatus s in
  let s := add getPullRequestComments s in
  let s := add getPullRequestReviews s in
  let s :=
    if negb readOnly then
      let s := add mergePullRequest s in
      let s := add updatePullRequestBranch s in
      let s := add createPullRequestReview s in
      let s := add createPullRequest s in
      s
    else s in
  (* repositories *)
  let s := add searchRepositories s in
  let s := add getFileContents s in
  let s := add listCommits s in
  let s :=
    if negb readOnly then
      let s := add createOrUpdateFile s in
      let s := add createRepository s in
      let s := add forkRepository s in
      let s := add createBranch s in
      let s := add pushFiles s in
      s
    else s in
  (* search *)
  let s := add searchCode s in
  let s := add searchUsers s in
  (* users *)
  let s := add getMe s in
  (* code scanning *)
  let s := add getCodeScanningAlert s in
  let s := add listCodeScanningAlerts s in
  s.

(** ** The registry in the specification's terms *)

(** The capability filter's configuration: the two name sets and the
    read-only flag. *)
Record FilterConfig := {
  excludeSet : gset string;
  includeSet : gset string;
  readOnlyMode : bool
}.

(** The configuration [NewServer] resolves from its arguments. *)
Definition configOf (TrimSpace : string -> string)
    (readOnly : bool) (excludeTools includeTools : string) : FilterConfig :=
  {| excludeSet := dom (parseToolList TrimSpace excludeTools);
     includeSet := dom (parseToolList TrimSpace includeTools);
     readOnlyMode := readOnly |}.

(** [isExposed] as the specification words it: the include set decides
    when it is non-empty, otherwise the exclude set does. *)
Definition isExposed (c : FilterConfig) (name : string) : bool :=
  if decide (includeSet c = ∅) then bool_decide (name ∉ excludeSet c)
  else bool_decide (name ∈ includeSet c).

(** The operations that change state on the service: those [NewServer]
    registers under [if !readOnly]. *)
Definition mutating (tool : Operation) : bool :=
  match tool with
  | createIssue | addIssueComment | updateIssue
  | mergePullRequest | updatePullRequestBranch | createPullRequestReview
  | createPullRequest
  | createOrUpdateFile | createRepository | forkRepository | createBranch
  | pushFiles => true
  | _ => false
  end.

(** The whole catalog in the order [NewServer] declares it. *)
Definition catalog : list Operation :=
  [ getIssue; searchIssues; listIssues;
    createIssue; addIssueComment; updateIssue;
    getPullRequest; listPullRequests; getPullRequestFiles;
    getPullRequestStatus; getPullRequestComments; getPullRequestReviews;
    mergePullRequest; updatePullRequestBranch; createPullRequestReview;
    createPullRequest;
    searchRepositories; getFileContents; listCommits;
    createOrUpdateFile; createRepository; forkRepository; createBranch;
    pushFiles;
    searchCode; searchUsers;
    getMe;
    getCodeScanningAlert; listCodeScanningAlerts ].

(** The double gate on one operation. *)
Definition registered (c : FilterConfig) (otherNames : Operation -> string)
    (tool : Operation) : bool :=
  (negb (mutating tool) || negb (readOnlyMode c))
  && isExposed c (Name otherNames tool).

(** The gate [NewServer] applies to one tool, the [if !readOnly] blocks
    included, on the maps it has parsed. *)
Definition gate (TrimSpace : string -> string) (otherNames : Operation -> string)
    (excludeTools includeTools : string) (readOnly : bool) (tool : Operation)
    : bool :=
  (negb (mutating tool) || negb readOnly)
  && shouldIncludeTool (parseToolList TrimSpace excludeTools)
       (parseToolList TrimSpace includeTools) (Name otherNames tool).

(** The invariant of a tool list built by [NewServer]: every entry holds
    [true]. *)
Definition allTrue (m : gmap string bool) : Prop :=
  forall k b, m !! k = Some b -> b = true.

(** ** Sample data for the examples *)

(** A trimming function for ASCII white space, enough for the examples. *)
Definition isAsciiSpace (c : Ascii.ascii) : bool :=
  match Ascii.nat_of_ascii c with
  | 9%nat | 10%nat | 11%nat | 12%nat | 13%nat | 32%nat => true
  | _ => false
  end.

Fixpoint trimLeft (s : string) : string :=
  match s with
  | String c s' => if isAsciiSpace c then trimLeft s' else s
  | EmptyString => EmptyString
  end.

Fixpoint trimRight (s : string) : string :=
  match s with
  | EmptyString => EmptyString
  | String c s' =>
      match trimRight s' with
      | EmptyString => if isAsciiSpace c then EmptyString else String c EmptyString
      | t => String c t
      end
  end.

Definition trimAsciiSpace (s : string) : string := trimRight (trimLeft s).

(** Tool names in the style of [get_me], for the constructors whose
    definitions are in sibling files. *)
Definition sampleNames (tool : Operation) : string :=
  match tool with
  | getIssue => "get_issue" | searchIssues => "search_issues"
  | listIssues => "list_issues" | createIssue => "create_issue"
  | addIssueComment => "add_issue_comment" | updateIssue => "update_issue"
  | getPullRequest => "get_pull_request"
  | listPullRequests => "list_pull_requests"
  | getPullRequestFiles => "get_pull_request_files"
  | getPullRequestStatus => "get_pull_request_status"
  | getPullRequestComments => "get_pull_request_comments"
  | getPullRequestReviews => "get_pull_request_reviews"
  | mergePullRequest => "merge_pull_request"
  | updatePullRequestBranch => "update_pull_request_branch"
  | createPullRequestReview => "create_pull_request_review"
  | createPullRequest => "create_pull_request"
  | searchRepositories => "search_repositories"
  | getFileContents => "get_file_contents" | listCommits => "list_commits"
  | createOrUpdateFile => "create_or_update_file"
  | createRepository => "create_repository"
  | forkRepository => "fork_repository" | createBranch => "create_branch"
  | pushFiles => "push_files" | searchCode => "search_code"
  | searchUsers => "search_users" | getMe => "get_me"
  | getCodeScanningAlert => "get_code_scanning_alert"
  | listCodeScanningAlerts => "list_code_scanning_alerts"
  end.

#[local] Set Warnings "-inexact-float".

(** Argument maps used in the examples. *)
Definition ownerBag : gmap string value := {[ "owner" := VString "octocat" ]}.
Definition pageBag (f : float64) : gmap string value := {[ "page" := VNumber f ]}.
Definition labelsBag (v : value) : gmap string value := {[ "labels" := v ]}.

(** ** Errors that wrap errors, and [isAcceptedError] *)

(** The error values that reach [getMe] and [isAcceptedError]: an error of
    some concrete type with no [Unwrap] method, which is a
    [*github.AcceptedError] or not, and the [*fmt.wrapError] that
    [fmt.Errorf] builds for a [%w] verb. *)
Inductive GoError : Type :=
| leafError (accepted : bool) (msg : string)
| wrapError (msg : string) (err : GoError).

(** The method [Error()]. *)
Definition errorText (e : GoError) : string :=
  match e with
  | leafError _ msg => msg
  | wrapError msg _ => msg
  end.

(** [fmt.Errorf(prefix + "%w", err)]. *)
Definition Errorf_w (prefix : string) (err : GoError) : GoError :=
  wrapError (prefix +:+ errorText err) err.

(** [errors.As(err, &acceptedError)] on a non-nil error: the first error in
    the [Unwrap] chain that is a [*github.AcceptedError]. *)
Fixpoint asAccepted (e : GoError) : bool :=
  match e with
  | leafError accepted _ => accepted
  | wrapError _ err => asAccepted err
  end.

(** [isAcceptedError]; [None] is the [nil] error. *)
Definition isAcceptedError (err : option GoError) : bool :=
  match err with
  | None => false
  | Some e => asAccepted e
  end.


(** ** The handler of [getMe] *)

(** [mcp.CallToolResult] with its text content, as [mcp.NewToolResultText]
    and [mcp.NewToolResultError] build it. *)
Record TextContent := { contentType : string; Text : string }.
Record CallToolResult := { Content : list TextContent; IsError : bool }.

Definition NewToolResultText (text : string) : CallToolResult :=
  {| Content := [ {| contentType := "text"; Text := text |} ];
     IsError := false |}.

Definition NewToolResultError (text : string) : CallToolResult :=
  {| Content := [ {| contentType := "text"; Text := text |} ];
     IsError := true |}.

(** [http.StatusOK]. *)
Definition StatusOK : Z := 200.

Section GetMe.

(** [*github.User] and the response body are opaque to the handler. *)
Variables (User Body : Type).

Record Response := { StatusCode : Z; RespBody : Body }.

(** What the handler calls outside this package: [client.Users.Get], which
    returns an error or a user with the response, [io.ReadAll] on the
    response body and [json.Marshal] on the user. *)
Record Collaborators := {
  Users_Get : string -> GoError + (User * Response);
  ReadAll : Body -> string * option GoError;
  Marshal : User -> string * option GoError
}.

(** The calls the handler makes, in order. *)
Inductive Call : Type :=
| CallUsersGet (user : string)
| CallReadAll (body : Body)
| CallMarshal (user : User)
| CallClose (body : Body).

(** The handler returned by [getMe]: its result pair and the calls it made.
    The deferred [resp.Body.Close()] runs when the function returns, once
    [client.Users.Get] has succeeded. *)
Definition getMe_handler (w : Collaborators) (_ : CallToolRequest)
    : (option CallToolResult * option GoError) * list Call :=
  match Users_Get w "" with
  | inl err =>
      ((None, Some (Errorf_w "failed to get user: " err)), [CallUsersGet ""])
  | inr (user, resp) =>
      let '(res, calls) :=
        if negb (StatusCode resp =? StatusOK) then
          match ReadAll w (RespBody resp) with
          | (_, Some err) =>
              ((None, Some (Errorf_w "failed to read response body: " err)),
               [CallReadAll (RespBody resp)])
          | (body, None) =>
              ((Some (NewToolResultError ("failed to get user: " +:+ body)), None),
               [CallReadAll (RespBody resp)])
          end
        else
          match Marshal w user with
          | (_, Some err) =>
              ((None, Some (Errorf_w "failed to marshal user: " err)),
               [CallMarshal user])
          | (r, None) =>
              ((Some (NewToolResultText r), None), [CallMarshal user])
          end in
      (res, [CallUsersGet ""] ++ calls ++ [CallClose (RespBody resp)])
  end.

End GetMe.

Arguments StatusCode {Body} _.
Arguments RespBody {Body} _.
Arguments Build_Response {Body} _ _.
Arguments Users_Get {User Body} _ _.
Arguments ReadAll {User Body} _ _.
Arguments Marshal {User Body} _ _.
Arguments Build_Collaborators {User Body} _ _ _.
Arguments CallUsersGet {User Body} _.
Arguments CallReadAll {User Body} _.
Arguments CallMarshal {User Body} _.
Arguments CallClose {User Body} _.
Arguments getMe_handler {User Body} _ _.

Definition isClose {User Body : Type} (c : Call User Body) : bool :=
  match c with CallClose _ => true | _ => false end.

(** ** Helpers for the statements about [strings.Split] *)

(** [strings.Join(pieces, sep)] for a one-byte separator. *)
Fixpoint Join (pieces : list string) (sep : Ascii.ascii) : string :=
  match pieces with
  | [] => EmptyString
  | [piece] => piece
  | piece :: rest => piece +:+ String sep (Join rest sep)
  end.

(** [strings.Count(s, sep)] and [strings.ContainsRune(s, sep)] for a byte. *)
Fixpoint Count (s : string) (sep : Ascii.ascii) : nat :=
  match s with
  | EmptyString => 0%nat
  | String c s' => if Ascii.eqb c sep then S (Count s' sep) else Count s' sep
  end.

Definition Contains (s : string) (sep : Ascii.ascii) : bool :=
  negb (Nat.eqb (Count s sep) 0).

(** Collaborators for the examples: the service answers with the given
    status, the body reads as ["No Content"], and the user marshals
    to a JSON text unless [marshalFails]. *)
Definition sampleWorld (getFails : bool) (status : Z) (marshalFails : bool)
    : Collaborators string string :=
  {| Users_Get := fun _ =>
       if getFails then inl (leafError true "job scheduled on GitHub side")
       else inr ("octocat", {| StatusCode := status; RespBody := "No Content" |});
     ReadAll := fun body => (body, None);
     Marshal := fun user =>
       if marshalFails then ("", Some (leafError false "unsupported type"))
       else ("{login:" +:+ user +:+ "}", None) |}.

(** * Properties of the parameter accessors *)

Section Accessors.

Implicit Types (r : CallToolRequest) (p : string) (v : value) (f : float64).

(** *** Zero and truncation on [float64] *)

Lemma float_zero_iff f :
  PrimFloat.eqb f 0 = true <-> exists s, Prim2SF f = S754_zero s.
Proof.
  rewrite FloatAxioms.eqb_spec.
  change (Prim2SF 0) with (S754_zero false).
  unfold SFeqb, SFcompare.
  destruct (Prim2SF f) as [s| s | |s m e]; split;
    try (intros [s' Hs']; discriminate); try discriminate; eauto.
  - destruct s; discriminate.
  - destruct s; discriminate.
Qed.

Lemma truncate_zero f : PrimFloat.eqb f 0 = true -> truncate f = Some 0.
Proof.
  intros [s Hs]%float_zero_iff. unfold truncate. now rewrite Hs.
Qed.

Lemma int_of_float64_truncate f z :
  truncate f = Some z -> minInt <= z <= maxInt -> int_of_float64 f = z.
Proof.
  intros Hf [Hlo Hhi]. unfold int_of_float64. rewrite Hf.
  apply Z.leb_le in Hlo, Hhi. now rewrite Hlo, Hhi.
Qed.

Lemma int_of_float64_range f : minInt <= int_of_float64 f <= maxInt.
Proof.
  unfold int_of_float64.
  destruct (truncate f) as [z|]; [|unfold minInt, maxInt; lia].
  destruct (minInt <=? z) eqn:Hlo; destruct (z <=? maxInt) eqn:Hhi; simpl;
    try (unfold minInt, maxInt; lia).
  apply Z.leb_le in Hlo, Hhi. lia.
Qed.

(** *** [requiredParam] and [optionalParam], case by case *)

Section Generic.
Context {T : Type} `{GoComparable T}.

Lemma requiredParam_absent r p :
  absent r p -> requiredParam (T := T) r p = (zero, Some (errMissingRequired p)).
Proof. unfold absent, requiredParam. now intros ->. Qed.

Lemma requiredParam_wrong_type r p v :
  present r p v -> assertT (T := T) v = None ->
  requiredParam (T := T) r p = (zero, Some (errNotOfType p typeName)).
Proof. unfold present, requiredParam. now intros -> ->. Qed.

Lemma requiredParam_zero r p (x : T) :
  present r p (inject x) -> goEq x zero = true ->
  requiredParam (T := T) r p = (zero, Some (errMissingRequired p)).
Proof.
  unfold present, requiredParam. intros -> Hz.
  now rewrite assertT_inject, Hz.
Qed.

Lemma requiredParam_value r p (x : T) :
  present r p (inject x) -> goEq x zero = false ->
  requiredParam r p = (x, None).
Proof.
  unfold present, requiredParam. intros -> Hz.
  now rewrite assertT_inject, Hz.
Qed.

Lemma optionalParam_absent r p :
  absent r p -> optionalParam (T := T) r p = (zero, None).
Proof. unfold absent, optionalParam. now intros ->. Qed.

Lemma optionalParam_wrong_type r p v :
  present r p v -> assertT (T := T) v = None ->
  optionalParam (T := T) r p = (zero, Some (errNotOfTypeIs p typeName (dynType v))).
Proof. unfold present, optionalParam. now intros -> ->. Qed.

Lemma optionalParam_value r p (x : T) :
  present r p (inject x) -> optionalParam r p = (x, None).
Proof.
  unfold present, optionalParam. intros ->. now rewrite assertT_inject.
Qed.

End Generic.

Lemma assert_float64_not_number v :
  isNumber v = false -> assertT (T := float64) v = None.
Proof. now destruct v. Qed.

(** *** The integer accessors *)

Lemma requiredInt_number r p f :
  present r p (VNumber f) -> PrimFloat.eqb f 0 = false ->
  requiredInt r p = (int_of_float64 f, None).
Proof.
  intros Hp Hz. unfold requiredInt.
  rewrite (requiredParam_value (T := float64) r p f); auto.
Qed.

Lemma requiredInt_zero r p f :
  present r p (VNumber f) -> PrimFloat.eqb f 0 = true ->
  requiredInt r p = (0, Some (errMissingRequired p)).
Proof.
  intros Hp Hz. unfold requiredInt.
  rewrite (requiredParam_zero (T := float64) r p f); auto.
Qed.

Lemma requiredInt_not_number r p v :
  present r p v -> isNumber v = false ->
  requiredInt r p = (0, Some (errNotOfType p "float64")).
Proof.
  intros Hp Hv. unfold requiredInt.
  rewrite (requiredParam_wrong_type (T := float64) r p v);
    auto using assert_float64_not_number.
Qed.

Lemma optionalIntParam_absent r p : absent r p -> optionalIntParam r p = (0, None).
Proof.
  intros Hp. unfold optionalIntParam.
  rewrite (optionalParam_absent (T := float64) r p); auto.
Qed.

Lemma optionalIntParam_number r p f :
  present r p (VNumber f) -> optionalIntParam r p = (int_of_float64 f, None).
Proof.
  intros Hp. unfold optionalIntParam.
  rewrite (optionalParam_value (T := float64) r p f); auto.
Qed.

Lemma optionalIntParam_not_number r p v :
  present r p v -> isNumber v = false ->
  optionalIntParam r p = (0, Some (errNotOfTypeIs p "float64" (dynType v))).
Proof.
  intros Hp Hv. unfold optionalIntParam.
  rewrite (optionalParam_wrong_type (T := float64) r p v);
    auto using assert_float64_not_number.
Qed.

Lemma withDefault_absent r p d :
  absent r p -> optionalIntParamWithDefault r p d = (d, None).
Proof.
  intros Hp. unfold optionalIntParamWithDefault.
  now rewrite optionalIntParam_absent.
Qed.

Lemma withDefault_truncates_to_zero r p d f :
  present r p (VNumber f) -> truncate f = Some 0 ->
  optionalIntParamWithDefault r p d = (d, None).
Proof.
  intros Hp Hf. unfold optionalIntParamWithDefault.
  rewrite (optionalIntParam_number r p f Hp).
  rewrite (int_of_float64_truncate f 0 Hf) by (unfold minInt, maxInt; lia).
  reflexivity.
Qed.

Lemma withDefault_nonzero r p d f z :
  present r p (VNumber f) -> truncate f = Some z -> z <> 0 ->
  minInt <= z <= maxInt ->
  optionalIntParamWithDefault r p d = (z, None).
Proof.
  intros Hp Hf Hz Hr. unfold optionalIntParamWithDefault.
  rewrite (optionalIntParam_number r p f Hp).
  rewrite (int_of_float64_truncate f z Hf Hr).
  apply Z.eqb_neq in Hz. now rewrite Hz.
Qed.

Lemma withDefault_not_number r p d v :
  present r p v -> isNumber v = false ->
  optionalIntParamWithDefault r p d
  = (0, Some (errNotOfTypeIs p "float64" (dynType v))).
Proof.
  intros Hp Hv. unfold optionalIntParamWithDefault.
  now rewrite (optionalIntParam_not_number r p v Hp Hv).
Qed.

End Accessors.

(** *** The element loop of [optionalStringArrayParam] *)

Lemma coerceElements_strings p (l pre : list string) :
  coerceElements p (VString <$> l) (length pre) (pre ++ replicate (length l) "")
  = (pre ++ l, None).
Proof.
  revert pre. induction l as [|s l IH]; intros pre; simpl.
  - reflexivity.
  - replace (length pre) with (length pre + 0)%nat at 2 by lia.
    rewrite insert_app_r. simpl.
    specialize (IH (pre ++ [s])).
    rewrite length_app in IH. simpl in IH.
    replace (length pre + 1)%nat with (S (length pre)) in IH by lia.
    rewrite <- !app_assoc in IH. exact IH.
Qed.

Lemma coerceElements_offender p (vs : list value) i acc :
  (exists v, v ∈ vs /\ isString v = false) ->
  exists v, v ∈ vs /\ isString v = false /\
    coerceElements p vs i acc = ([], Some (errNotOfTypeIs p "string" (dynType v))).
Proof.
  revert i acc. induction vs as [|v vs IH]; intros i acc [w [Hin Hw]].
  - inversion Hin.
  - destruct (isString v) eqn:Hv.
    + destruct v; try discriminate. simpl.
      apply elem_of_cons in Hin as [->|Hin]; [discriminate|].
      destruct (IH (S i) (<[i:=s]> acc)) as [u [Hu [Hs Hr]]]; [eauto|].
      exists u. split; [now apply list_elem_of_further|]. now split.
    + exists v. split; [apply list_elem_of_here|]. split; [exact Hv|].
      destruct v; try discriminate; reflexivity.
Qed.

(** * The claims about the parameter accessors *)

(** C2. [requiredParam] fails with MissingParameter when the name is absent,
    with TypeMismatch when the value is present but not a [T], with
    MissingParameter when the value is a [T] equal to [T]'s zero value, and
    otherwise succeeds with exactly the stored value. *)
Theorem requiredParam_spec {T : Type} `{GoComparable T}
    (r : CallToolRequest) (p : string) :
  (absent r p -> fails_with (requiredParam (T := T) r p) MissingParameter) /\
  (forall v, present r p v -> assertT (T := T) v = None ->
     fails_with (requiredParam (T := T) r p) TypeMismatch) /\
  (forall x : T, present r p (inject x) -> goEq x zero = true ->
     fails_with (requiredParam (T := T) r p) MissingParameter) /\
  (forall x : T, present r p (inject x) -> goEq x zero = false ->
     succeeds_with (requiredParam r p) x).
Proof.
  repeat split.
  - intros Hp. unfold fails_with. now rewrite requiredParam_absent.
  - intros v Hp Hv. unfold fails_with.
    now rewrite (requiredParam_wrong_type r p v).
  - intros x Hp Hx. unfold fails_with. now rewrite (requiredParam_zero r p x).
  - intros x Hp Hx. now apply requiredParam_value.
Qed.

Lemma requiredParam_spec_witness :
  succeeds_with (requiredParam (requestOf ownerBag) "owner") "octocat".
Proof.
  apply (proj2 (proj2 (proj2
           (requiredParam_spec (T := string) (requestOf ownerBag) "owner")))).
  - reflexivity.
  - reflexivity.
Defined.

(** The zero values of the three instantiations: the empty string, the
    number zero (of either sign) and [false] are all reported missing. *)
Example requiredParam_zero_values :
  requiredParam (T := string) (requestOf {[ "owner" := VString "" ]}) "owner"
    = ("", Some (errMissingRequired "owner")) /\
  requiredParam (T := float64) (requestOf (pageBag 0)) "page"
    = (0%float, Some (errMissingRequired "page")) /\
  requiredParam (T := float64) (requestOf (pageBag (-0))) "page"
    = (0%float, Some (errMissingRequired "page")) /\
  requiredParam (T := bool) (requestOf {[ "draft" := VBool false ]}) "draft"
    = (false, Some (errMissingRequired "draft")).
Proof. repeat split; reflexivity. Qed.

Example requiredParam_wrong_type_message :
  requiredParam (T := string) (requestOf (pageBag 1)) "page"
    = ("", Some (errNotOfType "page" "string")) /\
  Error (errNotOfType "page" "string") = "parameter page is not of type string".
Proof. split; reflexivity. Qed.

(** C7. [optionalParam] returns [T]'s zero value and no error when the name
    is absent, fails with TypeMismatch when the value is not a [T], and
    returns any present [T], the zero value included. *)
Theorem optionalParam_spec {T : Type} `{GoType T}
    (r : CallToolRequest) (p : string) :
  (absent r p -> succeeds_with (optionalParam (T := T) r p) zero) /\
  (forall v, present r p v -> assertT (T := T) v = None ->
     fails_with (optionalParam (T := T) r p) TypeMismatch) /\
  (forall x : T, present r p (inject x) -> succeeds_with (optionalParam r p) x) /\
  (present r p (inject (zero (T := T))) ->
     succeeds_with (optionalParam (T := T) r p) zero).
Proof.
  repeat split.
  - intros Hp. now apply optionalParam_absent.
  - intros v Hp Hv. unfold fails_with.
    now rewrite (optionalParam_wrong_type r p v).
  - intros x Hp. now apply optionalParam_value.
  - intros Hp. now apply optionalParam_value.
Qed.

Lemma optionalParam_spec_witness :
  succeeds_with (optionalParam (T := float64) (requestOf (pageBag 0)) "page")
                0%float.
Proof.
  exact (proj2 (proj2 (proj2
           (optionalParam_spec (T := float64) (requestOf (pageBag 0)) "page")))
         eq_refl).
Defined.

Example optionalParam_examples :
  optionalParam (T := string) (requestOf ownerBag) "repo" = ("", None) /\
  optionalParam (T := bool) (requestOf {[ "draft" := VBool false ]}) "draft"
    = (false, None) /\
  optionalParam (T := string) (requestOf {[ "owner" := VString "" ]}) "owner"
    = ("", None) /\
  optionalParam (T := string) (requestOf (pageBag 1)) "page"
    = ("", Some (errNotOfTypeIs "page" "string" "float64")).
Proof. repeat split; reflexivity. Qed.

(** C4, as the code has it.  For a stored Number that is not zero and whose
    integer part fits Go's [int], [requiredInt] returns that integer part,
    the fraction discarded towards zero: 5.0 and 5.9 both give 5, -5.9 gives
    -5.  A Number equal to zero is reported missing and a value that is not a
    Number is a type mismatch. *)
Theorem requiredInt_spec (r : CallToolRequest) (p : string) :
  (forall f z, present r p (VNumber f) -> PrimFloat.eqb f 0 = false ->
     truncate f = Some z -> minInt <= z <= maxInt ->
     succeeds_with (requiredInt r p) z) /\
  (present r p (VNumber 5) -> succeeds_with (requiredInt r p) 5) /\
  (present r p (VNumber 5.9) -> succeeds_with (requiredInt r p) 5) /\
  (present r p (VNumber (-5.9)) -> succeeds_with (requiredInt r p) (-5)) /\
  (forall f, present r p (VNumber f) -> PrimFloat.eqb f 0 = true ->
     fails_with (requiredInt r p) MissingParameter) /\
  (present r p (VNumber 0) -> fails_with (requiredInt r p) MissingParameter) /\
  (forall v, present r p v -> isNumber v = false ->
     fails_with (requiredInt r p) TypeMismatch).
Proof.
  assert (Hnum : forall f z, present r p (VNumber f) -> PrimFloat.eqb f 0 = false ->
            truncate f = Some z -> minInt <= z <= maxInt ->
            succeeds_with (requiredInt r p) z).
  { intros f z Hp Hz Hf Hr. unfold succeeds_with.
    rewrite (requiredInt_number r p f Hp Hz).
    now rewrite (int_of_float64_truncate f z Hf Hr). }
  assert (Hzero : forall f, present r p (VNumber f) -> PrimFloat.eqb f 0 = true ->
            fails_with (requiredInt r p) MissingParameter).
  { intros f Hp Hz. unfold fails_with. now rewrite (requiredInt_zero r p f Hp Hz). }
  split; [exact Hnum|].
  split; [intros Hp; apply (Hnum 5%float); trivial; vm_compute; split; discriminate|].
  split; [intros Hp; apply (Hnum 5.9%float); trivial; vm_compute; split; discriminate|].
  split; [intros Hp; apply (Hnum (-5.9)%float); trivial; vm_compute; split; discriminate|].
  split; [exact Hzero|].
  split; [intros Hp; now apply (Hzero 0%float)|].
  intros v Hp Hv. unfold fails_with.
  now rewrite (requiredInt_not_number r p v Hp Hv).
Qed.

Lemma requiredInt_spec_witness :
  succeeds_with (requiredInt (requestOf (pageBag 5.9)) "page") 5.
Proof.
  apply (proj1 (proj2 (proj2
           (requiredInt_spec (requestOf (pageBag 5.9)) "page")))).
  reflexivity.
Defined.

(** C4 as stated fails where the integer part does not fit [int]: the
    Number 1e19 has integer part 10^19, above [maxInt], and [requiredInt]
    succeeds with another integer. *)
Lemma requiredInt_integer_part_too_large :
  present (requestOf (pageBag 1e19)) "page" (VNumber 1e19) /\
  truncate 1e19 = Some 10000000000000000000 /\
  requiredInt (requestOf (pageBag 1e19)) "page" = (minInt, None) /\
  requiredInt (requestOf (pageBag 1e19)) "page" <> (10000000000000000000, None).
Proof.
  split; [reflexivity|]. split; [reflexivity|]. split; [reflexivity|].
  vm_compute. discriminate.
Qed.

(** C5, as the code has it.  [optionalIntParamWithDefault] returns the
    default when the name is absent and when the stored Number has integer
    part 0 (the Number zero among them); a Number whose integer part is not
    0 and fits [int] is returned truncated; a value that is not a Number is
    a type mismatch. *)
Theorem optionalIntParamWithDefault_spec
    (r : CallToolRequest) (p : string) (d : Z) :
  (absent r p -> succeeds_with (optionalIntParamWithDefault r p d) d) /\
  (forall f, present r p (VNumber f) -> PrimFloat.eqb f 0 = true ->
     succeeds_with (optionalIntParamWithDefault r p d) d) /\
  (forall f, present r p (VNumber f) -> truncate f = Some 0 ->
     succeeds_with (optionalIntParamWithDefault r p d) d) /\
  (forall f z, present r p (VNumber f) -> truncate f = Some z -> z <> 0 ->
     minInt <= z <= maxInt ->
     succeeds_with (optionalIntParamWithDefault r p d) z) /\
  (forall v, present r p v -> isNumber v = false ->
     fails_with (optionalIntParamWithDefault r p d) TypeMismatch).
Proof.
  split; [intros Hp; now apply withDefault_absent|].
  split.
  { intros f Hp Hz. apply (withDefault_truncates_to_zero r p d f Hp).
    now apply truncate_zero. }
  split; [intros f Hp Hf; now apply (withDefault_truncates_to_zero r p d f)|].
  split; [intros f z Hp Hf Hz Hr; now apply (withDefault_nonzero r p d f z)|].
  intros v Hp Hv. unfold fails_with.
  now rewrite (withDefault_not_number r p d v Hp Hv).
Qed.

Lemma optionalIntParamWithDefault_spec_witness :
  succeeds_with (optionalIntParamWithDefault (requestOf (pageBag 0)) "page" 10) 10 /\
  succeeds_with (optionalIntParamWithDefault (requestOf (pageBag 3.7)) "page" 10) 3.
Proof.
  split.
  - apply (proj1 (proj2
             (optionalIntParamWithDefault_spec (requestOf (pageBag 0)) "page" 10))
             0%float); reflexivity.
  - apply (proj1 (proj2 (proj2 (proj2
             (optionalIntParamWithDefault_spec (requestOf (pageBag 3.7)) "page" 10))))
             3.7%float 3); try reflexivity.
    + discriminate.
    + vm_compute. split; discriminate.
Defined.

(** C5 as stated fails at a Number that is not zero but truncates to it:
    0.5 is returned as the default 10, not as its truncation 0. *)
Lemma withDefault_fraction_gets_default :
  present (requestOf (pageBag 0.5)) "page" (VNumber 0.5) /\
  PrimFloat.eqb 0.5 0 = false /\
  truncate 0.5 = Some 0 /\
  optionalIntParamWithDefault (requestOf (pageBag 0.5)) "page" 10 = (10, None) /\
  optionalIntParamWithDefault (requestOf (pageBag 0.5)) "page" 10 <> (0, None).
Proof.
  split; [reflexivity|]. split; [reflexivity|]. split; [reflexivity|].
  split; [reflexivity|]. vm_compute. discriminate.
Qed.

(** C9. A present Number whose integer part is 0, such as 0.9 or -0.5, makes
    [optionalIntParamWithDefault] return the default: the conversion to
    [int] comes before the comparison with 0. *)
Theorem withDefault_truncation_precedes_zero_check
    (r : CallToolRequest) (p : string) (d : Z) (f : float64) :
  present r p (VNumber f) -> truncate f = Some 0 ->
  succeeds_with (optionalIntParamWithDefault r p d) d.
Proof.
  intros Hp Hf. unfold succeeds_with, optionalIntParamWithDefault.
  rewrite (optionalIntParam_number r p f Hp).
  assert (Hi : int_of_float64 f = 0).
  { apply int_of_float64_truncate; [exact Hf|]. unfold minInt, maxInt. lia. }
  rewrite Hi. reflexivity.
Qed.

Lemma withDefault_truncation_precedes_zero_check_witness :
  (PrimFloat.eqb 0.9 0 = false /\
   succeeds_with (optionalIntParamWithDefault (requestOf (pageBag 0.9)) "page" 30) 30) /\
  (PrimFloat.eqb (-0.5) 0 = false /\
   succeeds_with (optionalIntParamWithDefault (requestOf (pageBag (-0.5))) "page" 30) 30).
Proof.
  split; (split; [reflexivity|]).
  - apply (withDefault_truncation_precedes_zero_check
             (requestOf (pageBag 0.9)) "page" 30 0.9%float); reflexivity.
  - apply (withDefault_truncation_precedes_zero_check
             (requestOf (pageBag (-0.5))) "page" 30 (-0.5)%float); reflexivity.
Defined.

(** C6. [optionalStringArrayParam] returns the empty sequence when the name
    is absent and a stored [[]string] as it is; on a [[]interface{}] it
    returns the elements when all are strings, and when some element is not
    a string it fails with a type mismatch naming that element's type and
    returns the empty sequence, never a prefix of the array. *)
Theorem optionalStringArrayParam_spec (r : CallToolRequest) (p : string) :
  (absent r p -> succeeds_with (optionalStringArrayParam r p) []) /\
  (forall l, present r p (VStrings l) ->
     succeeds_with (optionalStringArrayParam r p) l) /\
  (forall l : list string, present r p (VArray (VString <$> l)) ->
     succeeds_with (optionalStringArrayParam r p) l) /\
  (forall vs, present r p (VArray vs) ->
     (exists v, v ∈ vs /\ isString v = false) ->
     fails_with (optionalStringArrayParam r p) TypeMismatch /\
     (optionalStringArrayParam r p).1 = [] /\
     exists v, v ∈ vs /\ isString v = false /\
       (optionalStringArrayParam r p).2
       = Some (errNotOfTypeIs p "string" (dynType v))) /\
  (present r p (VArray [VNumber 1; VString "b"]) ->
     optionalStringArrayParam r p
     = ([], Some (errNotOfTypeIs p "string" "float64"))).
Proof.
  split.
  { unfold absent, succeeds_with, optionalStringArrayParam. now intros ->. }
  split.
  { unfold present, succeeds_with, optionalStringArrayParam. now intros l ->. }
  split.
  { unfold present, succeeds_with, optionalStringArrayParam. intros l ->.
    rewrite length_fmap.
    exact (coerceElements_strings p l []). }
  split.
  { unfold present, optionalStringArrayParam. intros vs -> Hbad.
    destruct (coerceElements_offender p vs 0%nat
                (replicate (length vs) "") Hbad) as [v [Hin [Hv Hr]]].
    unfold fails_with. rewrite Hr. simpl.
    split; [reflexivity|]. split; [reflexivity|]. eauto. }
  unfold present, optionalStringArrayParam. now intros ->.
Qed.

Lemma optionalStringArrayParam_spec_witness :
  succeeds_with
    (optionalStringArrayParam (requestOf (labelsBag (VStrings ["a"; "b"]))) "labels")
    ["a"; "b"] /\
  succeeds_with
    (optionalStringArrayParam
       (requestOf (labelsBag (VArray [VString "a"; VString "b"]))) "labels")
    ["a"; "b"] /\
  optionalStringArrayParam
    (requestOf (labelsBag (VArray [VNumber 1; VString "b"]))) "labels"
  = ([], Some (errNotOfTypeIs "labels" "string" "float64")).
Proof.
  split; [|split].
  - apply (proj1 (proj2 (optionalStringArrayParam_spec
             (requestOf (labelsBag (VStrings ["a"; "b"]))) "labels"))).
    reflexivity.
  - apply (proj1 (proj2 (proj2 (optionalStringArrayParam_spec
             (requestOf (labelsBag (VArray [VString "a"; VString "b"])))
             "labels"))) ["a"; "b"]).
    reflexivity.
  - apply (proj2 (proj2 (proj2 (proj2 (optionalStringArrayParam_spec
             (requestOf (labelsBag (VArray [VNumber 1; VString "b"])))
             "labels"))))).
    reflexivity.
Defined.

(** A failure after a string element returns nothing of what was already
    stored in the result slice. *)
Example optionalStringArrayParam_no_partial_result :
  optionalStringArrayParam
    (requestOf (labelsBag (VArray [VString "a"; VBool true; VString "c"])))
    "labels"
  = ([], Some (errNotOfTypeIs "labels" "string" "bool")).
Proof. reflexivity. Qed.

(** C10. A present value that is neither a [[]string] nor a [[]interface{}]
    makes [optionalStringArrayParam] fail with the "could not be coerced to
    []string" type mismatch, and the empty sequence comes with the error. *)
Theorem optionalStringArrayParam_not_a_sequence
    (r : CallToolRequest) (p : string) (v : value) :
  present r p v ->
  (forall l, v <> VStrings l) -> (forall l, v <> VArray l) ->
  optionalStringArrayParam r p = ([], Some (errNotCoerced p (dynType v))) /\
  fails_with (optionalStringArrayParam r p) TypeMismatch /\
  Error (errNotCoerced p (dynType v))
  = "parameter " +:+ p +:+ " could not be coerced to []string, is " +:+ dynType v.
Proof.
  unfold present. intros Hp Hs Ha.
  assert (Hr : optionalStringArrayParam r p
               = ([], Some (errNotCoerced p (dynType v)))).
  { unfold optionalStringArrayParam. rewrite Hp.
    destruct v as [| | | |l|l|]; try reflexivity.
    - now destruct (Hs l).
    - now destruct (Ha l). }
  split; [exact Hr|]. split; [|reflexivity].
  unfold fails_with. rewrite Hr. reflexivity.
Qed.

Lemma optionalStringArrayParam_not_a_sequence_witness :
  optionalStringArrayParam (requestOf (labelsBag (VString "bug"))) "labels"
  = ([], Some (errNotCoerced "labels" "string")) /\
  Error (errNotCoerced "labels" "string")
  = "parameter labels could not be coerced to []string, is string".
Proof.
  destruct (optionalStringArrayParam_not_a_sequence
              (requestOf (labelsBag (VString "bug"))) "labels" (VString "bug"))
    as [Hr [_ He]]; [reflexivity|discriminate|discriminate|].
  split; [exact Hr|exact He].
Defined.

Example optionalStringArrayParam_scalars :
  optionalStringArrayParam (requestOf (labelsBag (VNumber 3))) "labels"
    = ([], Some (errNotCoerced "labels" "float64")) /\
  optionalStringArrayParam (requestOf (labelsBag (VBool true))) "labels"
    = ([], Some (errNotCoerced "labels" "bool")) /\
  optionalStringArrayParam (requestOf (labelsBag VNil)) "labels"
    = ([], Some (errNotCoerced "labels" "<nil>")).
Proof. repeat split; reflexivity. Qed.

(** * Properties of the registry *)

Lemma allTrue_empty : allTrue ∅.
Proof. intros k b Hk. now rewrite lookup_empty in Hk. Qed.

Lemma allTrue_insert m k : allTrue m -> allTrue (<[k := true]> m).
Proof.
  intros Hm k' b. rewrite lookup_insert.
  destruct (decide (k = k')); [now intros [= <-]|]. apply Hm.
Qed.

Lemma allTrue_foldl (TrimSpace : string -> string) (l : list string) m :
  allTrue m ->
  allTrue (foldl (fun list tool => <[TrimSpace tool := true]> list) m l).
Proof.
  revert m. induction l as [|tool l IH]; intros m Hm; simpl; [exact Hm|].
  apply IH. now apply allTrue_insert.
Qed.

Lemma parseToolList_allTrue TrimSpace toolList :
  allTrue (parseToolList TrimSpace toolList).
Proof.
  unfold parseToolList. destruct (String.eqb toolList "").
  - apply allTrue_empty.
  - apply allTrue_foldl, allTrue_empty.
Qed.

Lemma index_allTrue m k : allTrue m -> index m k = bool_decide (k ∈ dom m).
Proof.
  intros Hm. unfold index. destruct (m !! k) as [b|] eqn:Hk; simpl.
  - rewrite (Hm k b Hk). symmetry. apply bool_decide_eq_true.
    apply elem_of_dom. eauto.
  - symmetry. apply bool_decide_eq_false. now apply not_elem_of_dom.
Qed.

Lemma len_positive (m : gmap string bool) :
  (0 <? size m)%nat = negb (bool_decide (dom m = ∅)).
Proof.
  destruct (decide (dom m = ∅)) as [He|Hne].
  - rewrite (bool_decide_eq_true_2 _ He). simpl.
    apply dom_empty_iff_L in He. subst m.
    now rewrite map_size_empty.
  - rewrite (bool_decide_eq_false_2 _ Hne). simpl.
    apply Nat.ltb_lt.
    assert (size m <> 0%nat); [|lia].
    intros Hs. apply Hne. apply dom_empty_iff_L. now apply map_size_empty_iff.
Qed.

(** The code's gate on maps against the specification's on sets. *)
Lemma shouldIncludeTool_sets excludeList includeList name :
  allTrue excludeList -> allTrue includeList ->
  shouldIncludeTool excludeList includeList name
  = if decide (dom includeList = ∅)
    then bool_decide (name ∉ dom excludeList)
    else bool_decide (name ∈ dom includeList).
Proof.
  intros He Hi. unfold shouldIncludeTool.
  rewrite len_positive, !index_allTrue by assumption.
  destruct (decide (dom includeList = ∅)) as [H0|H0].
  - rewrite (bool_decide_eq_true_2 _ H0). simpl.
    now rewrite bool_decide_not.
  - now rewrite (bool_decide_eq_false_2 _ H0).
Qed.

Lemma filter_cons_app {A : Type} (P : A -> bool) (x : A) (l : list A) :
  List.filter P (x :: l) = (if P x then [x] else []) ++ List.filter P l.
Proof. simpl. now destruct (P x). Qed.

Lemma filter_sublist_of {A : Type} (P : A -> bool) (l : list A) :
  sublist (List.filter P l) l.
Proof.
  induction l as [|x l IH]; simpl.
  - constructor.
  - destruct (P x); now constructor.
Qed.

Lemma filter_ext_all {A : Type} (P Q : A -> bool) (l : list A) :
  (forall x, P x = Q x) -> List.filter P l = List.filter Q l.
Proof.
  intros HPQ. induction l as [|x l IH]; simpl; [reflexivity|].
  now rewrite HPQ, IH.
Qed.

Lemma catalog_complete (tool : Operation) : In tool catalog.
Proof. destruct tool; unfold catalog; simpl; tauto. Qed.

Lemma catalog_NoDup : NoDup catalog.
Proof. apply (bool_decide_unpack (NoDup catalog)). vm_compute. exact I. Qed.

Section Registry.

Variable TrimSpace : string -> string.
Variable otherNames : Operation -> string.
Variables (excludeTools includeTools : string).

Lemma tools_addToolIfIncluded (excludeList includeList : gmap string bool) tool s :
  tools (addToolIfIncluded excludeList includeList otherNames tool s)
  = tools s ++
    if shouldIncludeTool excludeList includeList (Name otherNames tool)
    then [tool] else [].
Proof.
  unfold addToolIfIncluded.
  destruct (shouldIncludeTool _ _ _); simpl; [reflexivity|].
  now rewrite app_nil_r.
Qed.

Lemma NewServer_tools readOnly :
  tools (NewServer TrimSpace otherNames readOnly excludeTools includeTools)
  = List.filter (gate TrimSpace otherNames excludeTools includeTools readOnly)
                catalog.
Proof.
  unfold NewServer, catalog. cbv zeta.
  rewrite !filter_cons_app. unfold gate.
  destruct readOnly; cbn [negb mutating orb andb List.filter];
    rewrite !tools_addToolIfIncluded;
    cbn [tools AddResourceTemplate NewMCPServer app];
    rewrite <- ?app_assoc; rewrite ?app_nil_r; reflexivity.
Qed.

Lemma gate_registered readOnly tool :
  gate TrimSpace otherNames excludeTools includeTools readOnly tool
  = registered (configOf TrimSpace readOnly excludeTools includeTools)
               otherNames tool.
Proof.
  unfold gate, registered, isExposed, configOf. cbn [readOnlyMode includeSet excludeSet].
  f_equal. apply shouldIncludeTool_sets; apply parseToolList_allTrue.
Qed.

Lemma NewServer_registers readOnly tool :
  tool ∈ tools (NewServer TrimSpace otherNames readOnly excludeTools includeTools)
  <-> gate TrimSpace otherNames excludeTools includeTools readOnly tool = true.
Proof.
  rewrite NewServer_tools, list_elem_of_In, filter_In.
  split; [tauto|]. intros Hg. split; [apply catalog_complete|exact Hg].
Qed.

End Registry.

Section RegistryFields.

Variable TrimSpace : string -> string.
Variable otherNames : Operation -> string.
Variables (excludeTools includeTools : string).

Lemma fields_addToolIfIncluded (excludeList includeList : gmap string bool) tool s :
  serverName (addToolIfIncluded excludeList includeList otherNames tool s)
    = serverName s /\
  serverVersion (addToolIfIncluded excludeList includeList otherNames tool s)
    = serverVersion s /\
  resourceTemplates (addToolIfIncluded excludeList includeList otherNames tool s)
    = resourceTemplates s.
Proof.
  unfold addToolIfIncluded.
  destruct (shouldIncludeTool _ _ _); simpl; auto.
Qed.

(** The server [NewServer] returns, field by field. *)
Lemma NewServer_fields readOnly :
  NewServer TrimSpace otherNames readOnly excludeTools includeTools
  = {| serverName := "github-mcp-server";
       serverVersion := "0.0.1";
       resourceTemplates :=
         [ getRepositoryResourceContent; getRepositoryResourceBranchContent;
           getRepositoryResourceCommitContent; getRepositoryResourceTagContent;
           getRepositoryResourcePrContent ];
       tools := List.filter
                  (gate TrimSpace otherNames excludeTools includeTools readOnly)
                  catalog |}.
Proof.
  rewrite <- NewServer_tools.
  set (s := NewServer _ _ _ _ _).
  assert (Hn : serverName s = "github-mcp-server"
               /\ serverVersion s = "0.0.1"
               /\ resourceTemplates s
                  = [ getRepositoryResourceContent;
                      getRepositoryResourceBranchContent;
                      getRepositoryResourceCommitContent;
                      getRepositoryResourceTagContent;
                      getRepositoryResourcePrContent ]).
  { subst s. unfold NewServer. cbv zeta.
    destruct readOnly; cbn [negb];
      repeat (rewrite (proj1 (fields_addToolIfIncluded _ _ _ _)),
                (proj1 (proj2 (fields_addToolIfIncluded _ _ _ _))),
                (proj2 (proj2 (fields_addToolIfIncluded _ _ _ _))));
      repeat split; reflexivity. }
  destruct Hn as [Hn [Hv Ht]]. destruct s as [n v t ts]. simpl in *.
  now subst.
Qed.

End RegistryFields.

(** * The claims about the capability filter and the registry *)

(** C1. For the maps of a configuration [c], [shouldIncludeTool] answers
    membership in the include set whenever that set is non-empty, whatever
    the exclude list holds, and non-membership in the exclude set when the
    include set is empty.  With include set {a} and exclude set {a, b}, a is
    exposed and b is not. *)
Theorem shouldIncludeTool_spec
    (c : FilterConfig) (excludeList includeList : gmap string bool) :
  allTrue excludeList -> allTrue includeList ->
  dom excludeList = excludeSet c -> dom includeList = includeSet c ->
  let exposed := shouldIncludeTool excludeList includeList in
  (includeSet c <> ∅ ->
     forall name, exposed name = bool_decide (name ∈ includeSet c)) /\
  (includeSet c <> ∅ ->
     forall excludeList' name,
       shouldIncludeTool excludeList' includeList name = exposed name) /\
  (includeSet c = ∅ ->
     forall name, exposed name = negb (bool_decide (name ∈ excludeSet c))) /\
  (includeSet c = {[ "a" ]} -> excludeSet c = {[ "a"; "b" ]} ->
     exposed "a" = true /\ exposed "b" = false) /\
  (includeSet c = ∅ -> excludeSet c = {[ "b" ]} ->
     exposed "a" = true /\ exposed "b" = false) /\
  (forall name, exposed name = isExposed c name).
Proof.
  intros He Hi Hde Hdi exposed. unfold isExposed.
  rewrite <- Hde, <- Hdi. clear c Hde Hdi.
  assert (Hsets : forall name, exposed name
            = if decide (dom includeList = ∅)
              then bool_decide (name ∉ dom excludeList)
              else bool_decide (name ∈ dom includeList)).
  { intros name. now apply shouldIncludeTool_sets. }
  assert (Hinc : dom includeList <> ∅ ->
            forall name, exposed name = bool_decide (name ∈ dom includeList)).
  { intros Hne name. rewrite Hsets. now destruct (decide _). }
  assert (Hexc : dom includeList = ∅ ->
            forall name, exposed name = negb (bool_decide (name ∈ dom excludeList))).
  { intros H0 name. rewrite Hsets, bool_decide_not. now destruct (decide _). }
  simpl.
  split; [exact Hinc|]. split.
  { intros Hne excludeList' name. subst exposed. unfold shouldIncludeTool.
    rewrite len_positive, (bool_decide_eq_false_2 _ Hne). reflexivity. }
  split; [exact Hexc|]. split.
  { intros Ha Hab.
    assert (Hne : dom includeList <> ∅).
    { rewrite Ha. intros Hs. apply (not_elem_of_empty (C := gset string) "a").
      rewrite <- Hs. now apply elem_of_singleton. }
    rewrite !Hinc, Ha by exact Hne. split.
    - apply bool_decide_eq_true. now apply elem_of_singleton.
    - apply bool_decide_eq_false. intros [=]%elem_of_singleton. }
  split.
  { intros H0 Hb. rewrite !Hexc, Hb by exact H0. split.
    - apply negb_true_iff, bool_decide_eq_false.
      intros [=]%elem_of_singleton.
    - apply negb_false_iff, bool_decide_eq_true. now apply elem_of_singleton. }
  intros name. rewrite Hsets. reflexivity.
Qed.

Lemma shouldIncludeTool_spec_witness :
  let exposed := shouldIncludeTool (parseToolList trimAsciiSpace "a, b")
                                   (parseToolList trimAsciiSpace "a") in
  exposed "a" = true /\ exposed "b" = false.
Proof.
  destruct (shouldIncludeTool_spec (configOf trimAsciiSpace false "a, b" "a")
              (parseToolList trimAsciiSpace "a, b")
              (parseToolList trimAsciiSpace "a")
              (parseToolList_allTrue _ _) (parseToolList_allTrue _ _)
              eq_refl eq_refl) as (_ & _ & _ & Hab & _).
  apply Hab; vm_compute; reflexivity.
Defined.

(** C3. In read-only mode [NewServer] registers no mutating operation,
    whatever the include and exclude lists say; a mutating operation is
    registered exactly when the server is not read-only and the filter
    exposes its name.  [NewServer] has no error result: an operation that
    fails a gate is just not in the list. *)
Theorem mutating_operations_gated
    (TrimSpace : string -> string) (otherNames : Operation -> string)
    (readOnly : bool) (excludeTools includeTools : string) :
  let c := configOf TrimSpace readOnly excludeTools includeTools in
  let s := NewServer TrimSpace otherNames readOnly excludeTools includeTools in
  (readOnlyMode c = true ->
     forall tool, mutating tool = true -> tool ∉ tools s) /\
  (forall tool, mutating tool = true ->
     (tool ∈ tools s <->
      readOnlyMode c = false /\
      shouldIncludeTool (parseToolList TrimSpace excludeTools)
        (parseToolList TrimSpace includeTools) (Name otherNames tool) = true)) /\
  (forall tool, mutating tool = true ->
     (tool ∈ tools s <->
      readOnlyMode c = false /\ isExposed c (Name otherNames tool) = true)).
Proof.
  intros c s.
  assert (Hcode : forall tool, mutating tool = true ->
            (tool ∈ tools s <->
             readOnly = false /\
             shouldIncludeTool (parseToolList TrimSpace excludeTools)
               (parseToolList TrimSpace includeTools) (Name otherNames tool)
             = true)).
  { intros tool Hm. subst s. rewrite NewServer_registers. unfold gate.
    rewrite Hm. destruct readOnly; simpl; intuition congruence. }
  split.
  { simpl. intros -> tool Hm Hin. apply (Hcode tool Hm) in Hin as [[=] _]. }
  split; [exact Hcode|].
  intros tool Hm. rewrite (Hcode tool Hm).
  rewrite (shouldIncludeTool_sets _ _ _ (parseToolList_allTrue _ _)
             (parseToolList_allTrue _ _)).
  reflexivity.
Qed.

Lemma mutating_operations_gated_witness :
  (createIssue ∉ tools (NewServer trimAsciiSpace sampleNames true "" "create_issue"))
  /\ (createIssue ∈ tools (NewServer trimAsciiSpace sampleNames false "" "create_issue")).
Proof.
  split.
  - apply (proj1 (mutating_operations_gated trimAsciiSpace sampleNames true
                    "" "create_issue")); reflexivity.
  - apply (proj1 (proj2 (mutating_operations_gated trimAsciiSpace sampleNames
                           false "" "create_issue")) createIssue eq_refl).
    split; reflexivity.
Defined.

(** C8. The tools [NewServer] registers are the catalog, in its declared
    order, with the operations that fail the double gate left out: the
    filter omits and never reorders.  The result depends on the
    configuration alone: two builds whose arguments resolve to the same
    configuration return the same server. *)
Theorem registry_build_ordered_and_deterministic
    (TrimSpace : string -> string) (otherNames : Operation -> string)
    (readOnly : bool) (excludeTools includeTools : string) :
  let c := configOf TrimSpace readOnly excludeTools includeTools in
  let s := NewServer TrimSpace otherNames readOnly excludeTools includeTools in
  tools s = List.filter (registered c otherNames) catalog /\
  sublist (tools s) catalog /\
  NoDup (tools s) /\
  (forall TrimSpace' excludeTools' includeTools',
     configOf TrimSpace' readOnly excludeTools' includeTools' = c ->
     NewServer TrimSpace' otherNames readOnly excludeTools' includeTools' = s).
Proof.
  intros c s.
  assert (Ht : tools s = List.filter (registered c otherNames) catalog).
  { subst s c. rewrite NewServer_tools.
    apply filter_ext_all. intros tool. apply gate_registered. }
  split; [exact Ht|].
  assert (Hsub : sublist (tools s) catalog).
  { rewrite Ht. apply filter_sublist_of. }
  split; [exact Hsub|]. split.
  { eapply sublist_NoDup; [exact catalog_NoDup|exact Hsub]. }
  intros TrimSpace' excludeTools' includeTools' Hc.
  subst s. rewrite !NewServer_fields.
  rewrite (filter_ext_all
             (gate TrimSpace' otherNames excludeTools' includeTools' readOnly)
             (gate TrimSpace otherNames excludeTools includeTools readOnly)).
  - reflexivity.
  - intros tool. rewrite !gate_registered. rewrite Hc. reflexivity.
Qed.

Lemma registry_build_ordered_and_deterministic_witness :
  tools (NewServer trimAsciiSpace sampleNames true "get_me, list_commits" "")
  = [ getIssue; searchIssues; listIssues;
      getPullRequest; listPullRequests; getPullRequestFiles;
      getPullRequestStatus; getPullRequestComments; getPullRequestReviews;
      searchRepositories; getFileContents;
      searchCode; searchUsers;
      getCodeScanningAlert; listCodeScanningAlerts ]
  /\ NewServer trimAsciiSpace sampleNames true "list_commits,get_me" ""
     = NewServer trimAsciiSpace sampleNames true "get_me, list_commits" "".
Proof.
  split.
  - rewrite (proj1 (registry_build_ordered_and_deterministic trimAsciiSpace
                      sampleNames true "get_me, list_commits" "")).
    vm_compute. reflexivity.
  - apply (proj2 (proj2 (proj2 (registry_build_ordered_and_deterministic
             trimAsciiSpace sampleNames true "get_me, list_commits" "")))).
    vm_compute. reflexivity.
Defined.

(** * Further properties of the parameter accessors *)

Lemma coerceElements_success p (vs : list value) (pre l : list string) :
  coerceElements p vs (length pre) (pre ++ replicate (length vs) "") = (l, None) ->
  exists strs, vs = VString <$> strs /\ l = pre ++ strs.
Proof.
  revert pre. induction vs as [|v vs IH]; intros pre; simpl.
  - rewrite app_nil_r. intros [= <-]. exists []. now rewrite app_nil_r.
  - destruct v; try discriminate.
    replace (length pre) with (length pre + 0)%nat at 2 by lia.
    rewrite insert_app_r. simpl.
    replace (S (length pre)) with (length (pre ++ [s]))
      by (rewrite length_app; simpl; lia).
    replace (pre ++ s :: replicate (length vs) "")
      with ((pre ++ [s]) ++ replicate (length vs) "")
      by (now rewrite <- app_assoc).
    intros [strs [-> ->]]%IH. exists (s :: strs). split; [reflexivity|].
    now rewrite <- app_assoc.
Qed.

Lemma coerceElements_first_offender p (pre : list string) v rest i acc :
  isString v = false ->
  coerceElements p ((VString <$> pre) ++ v :: rest) i acc
  = ([], Some (errNotOfTypeIs p "string" (dynType v))).
Proof.
  intros Hv. revert i acc. induction pre as [|s pre IH]; intros i acc; simpl.
  - destruct v; try discriminate; reflexivity.
  - apply IH.
Qed.

Lemma coerceElements_error_empty p (vs : list value) i acc l e :
  coerceElements p vs i acc = (l, Some e) -> l = [].
Proof.
  revert i acc. induction vs as [|v vs IH]; intros i acc; simpl.
  - discriminate.
  - destruct v; try (now intros [= <- _]). apply IH.
Qed.

(** X1. When an accessor returns an error, the value beside it is the zero
    value of the result type: the zero of [T], the integer 0, the empty
    sequence.  No accessor hands back a stored or partial value together
    with an error. *)
Theorem accessor_error_comes_with_zero_value {T : Type} `{GoComparable T}
    (r : CallToolRequest) (p : string) (d : Z) :
  ((requiredParam (T := T) r p).2 <> None -> (requiredParam (T := T) r p).1 = zero) /\
  ((optionalParam (T := T) r p).2 <> None -> (optionalParam (T := T) r p).1 = zero) /\
  ((requiredInt r p).2 <> None -> (requiredInt r p).1 = 0) /\
  ((optionalIntParam r p).2 <> None -> (optionalIntParam r p).1 = 0) /\
  ((optionalIntParamWithDefault r p d).2 <> None ->
     (optionalIntParamWithDefault r p d).1 = 0) /\
  ((optionalStringArrayParam r p).2 <> None ->
     (optionalStringArrayParam r p).1 = []).
Proof.
  repeat split.
  - unfold requiredParam. destruct (Arguments (Params r) !! p) as [v|]; [|reflexivity].
    destruct (assertT v) as [x|]; [|reflexivity].
    destruct (goEq x zero); [reflexivity|]. simpl. congruence.
  - unfold optionalParam. destruct (Arguments (Params r) !! p) as [v|];
      [|simpl; congruence].
    destruct (assertT v) as [x|]; [simpl; congruence|reflexivity].
  - unfold requiredInt.
    destruct (requiredParam (T := float64) r p) as [v [e|]]; simpl; congruence.
  - unfold optionalIntParam.
    destruct (optionalParam (T := float64) r p) as [v [e|]]; simpl; congruence.
  - unfold optionalIntParamWithDefault.
    destruct (optionalIntParam r p) as [v [e|]]; [reflexivity|].
    destruct (v =? 0); simpl; congruence.
  - unfold optionalStringArrayParam.
    destruct (Arguments (Params r) !! p) as [v|]; [|simpl; congruence].
    destruct v as [| | | |l|vs|]; try reflexivity; [simpl; congruence|].
    intros Herr.
    destruct (coerceElements p vs 0 (replicate (length vs) "")) as [l [e|]] eqn:Hc;
      [|now destruct Herr].
    now apply (coerceElements_error_empty p vs 0 (replicate (length vs) "") l e).
Qed.

(** X2. A successful [requiredParam] returned what is stored at the name,
    and that value is not the zero value of [T]. *)
Theorem requiredParam_success_inv {T : Type} `{GoComparable T}
    (r : CallToolRequest) (p : string) (x : T) :
  requiredParam r p = (x, None) ->
  present r p (inject x) /\ goEq x zero = false.
Proof.
  unfold requiredParam, present.
  destruct (Arguments (Params r) !! p) as [v|]; [|discriminate].
  destruct (assertT v) as [y|] eqn:Hv; [|discriminate].
  destruct (goEq y zero) eqn:Hz; [discriminate|].
  intros [= ->]. split; [|exact Hz].
  f_equal. now apply assertT_Some.
Qed.

Lemma requiredParam_success_inv_witness :
  present (requestOf ownerBag) "owner" (VString "octocat") /\
  String.eqb "octocat" "" = false.
Proof.
  exact (requiredParam_success_inv (T := string) (requestOf ownerBag) "owner"
           "octocat" eq_refl).
Defined.

(** X3. Whatever [requiredParam] accepts, [optionalParam] returns too; and
    [optionalParam] fails only with a type mismatch, exactly where
    [requiredParam] reports the type mismatch. *)
Theorem optionalParam_extends_requiredParam {T : Type} `{GoComparable T}
    (r : CallToolRequest) (p : string) :
  (forall x : T, requiredParam r p = (x, None) -> optionalParam r p = (x, None)) /\
  (forall k, fails_with (optionalParam (T := T) r p) k -> k = TypeMismatch) /\
  ((optionalParam (T := T) r p).2 <> None <->
   fails_with (requiredParam (T := T) r p) TypeMismatch).
Proof.
  unfold requiredParam, optionalParam, fails_with.
  destruct (Arguments (Params r) !! p) as [v|]; simpl.
  - destruct (assertT v) as [y|]; simpl.
    + destruct (goEq y zero); simpl; repeat split;
        try congruence; try tauto; try discriminate.
    + repeat split; try congruence; try discriminate.
  - repeat split; try congruence; try tauto; try discriminate.
Qed.

Lemma optionalParam_extends_requiredParam_witness :
  optionalParam (requestOf ownerBag) "owner" = ("octocat", None).
Proof.
  apply (proj1 (optionalParam_extends_requiredParam (T := string)
                  (requestOf ownerBag) "owner")).
  reflexivity.
Defined.

(** X4. [requiredParam] cannot tell a zero value from a missing one: the
    whole result, error message included, is the same in both requests. *)
Theorem requiredParam_zero_like_absent {T : Type} `{GoComparable T}
    (r r' : CallToolRequest) (p : string) (x : T) :
  absent r p -> present r' p (inject x) -> goEq x zero = true ->
  requiredParam (T := T) r' p = requiredParam (T := T) r p /\
  option_map Error (requiredParam (T := T) r' p).2
  = Some ("missing required parameter: " +:+ p).
Proof.
  intros Ha Hp Hz.
  rewrite (requiredParam_zero r' p x Hp Hz), (requiredParam_absent r p Ha).
  split; reflexivity.
Qed.

Lemma requiredParam_zero_like_absent_witness :
  requiredParam (T := string) (requestOf {[ "owner" := VString "" ]}) "owner"
  = requiredParam (T := string) (requestOf ∅) "owner".
Proof.
  apply (requiredParam_zero_like_absent (T := string) (requestOf ∅)
           (requestOf {[ "owner" := VString "" ]}) "owner" "");
    reflexivity.
Defined.

(** X5. The accessors read the entry at the name and nothing else: after
    storing a [T] at [p] the optional accessor returns it and the required
    one returns it unless it is the zero value; a store or a removal at
    another name changes neither; after removing [p] the required accessor
    reports it missing and the optional one returns the zero value. *)
Theorem accessors_follow_the_entry {T : Type} `{GoComparable T}
    (bag : gmap string value) (p q : string) (x : T) (v : value) :
  optionalParam (requestOf (<[p := inject x]> bag)) p = (x, None) /\
  (goEq x zero = false ->
     requiredParam (requestOf (<[p := inject x]> bag)) p = (x, None)) /\
  (q <> p ->
     requiredParam (T := T) (requestOf (<[q := v]> bag)) p
       = requiredParam (requestOf bag) p /\
     optionalParam (T := T) (requestOf (<[q := v]> bag)) p
       = optionalParam (requestOf bag) p /\
     requiredParam (T := T) (requestOf (delete q bag)) p
       = requiredParam (requestOf bag) p /\
     optionalParam (T := T) (requestOf (delete q bag)) p
       = optionalParam (requestOf bag) p) /\
  requiredParam (T := T) (requestOf (delete p bag)) p
    = (zero, Some (errMissingRequired p)) /\
  optionalParam (T := T) (requestOf (delete p bag)) p = (zero, None).
Proof.
  split; [apply optionalParam_value; apply lookup_insert_eq|].
  split; [intros Hz; apply requiredParam_value; [apply lookup_insert_eq|exact Hz]|].
  split.
  { intros Hq. unfold requiredParam, optionalParam. simpl.
    rewrite (lookup_insert_ne bag q p) by exact Hq.
    rewrite (lookup_delete_ne bag q p) by exact Hq. auto. }
  split.
  - apply requiredParam_absent. apply lookup_delete_eq.
  - apply optionalParam_absent. apply lookup_delete_eq.
Qed.

Lemma accessors_follow_the_entry_witness :
  requiredParam (requestOf (<["repo" := VString "hello"]> ownerBag)) "repo"
    = ("hello", None) /\
  requiredParam (T := string) (requestOf (<["repo" := VString "hello"]> ownerBag))
    "owner" = requiredParam (requestOf ownerBag) "owner".
Proof.
  destruct (accessors_follow_the_entry (T := string) ownerBag "repo" "owner"
              "hello" (VString "x")) as (_ & Hreq & _).
  destruct (accessors_follow_the_entry (T := string) ownerBag "owner" "repo"
              "hello" (VString "hello")) as (_ & _ & Hother & _).
  split.
  - apply Hreq. reflexivity.
  - apply Hother. discriminate.
Defined.

(** X6. A successful [requiredInt] converted a stored Number that is not
    zero; the result itself can be 0, because the zero check is made on the
    Number before the conversion: every non-zero Number with integer part 0
    is accepted and returned as 0. *)
Theorem requiredInt_success_inv (r : CallToolRequest) (p : string) :
  (forall z, requiredInt r p = (z, None) ->
     exists f, present r p (VNumber f) /\ PrimFloat.eqb f 0 = false /\
               z = int_of_float64 f) /\
  (forall f, present r p (VNumber f) -> PrimFloat.eqb f 0 = false ->
     truncate f = Some 0 -> requiredInt r p = (0, None)).
Proof.
  split.
  - intros z. unfold requiredInt, requiredParam, present.
    destruct (Arguments (Params r) !! p) as [v|]; [|discriminate].
    destruct v; simpl; try discriminate.
    destruct (PrimFloat.eqb f 0) eqn:Hz; [discriminate|].
    intros [= <-]. exists f. auto.
  - intros f Hp Hz Hf. rewrite (requiredInt_number r p f Hp Hz).
    rewrite (int_of_float64_truncate f 0 Hf) by (unfold minInt, maxInt; lia).
    reflexivity.
Qed.

Lemma requiredInt_success_inv_witness :
  requiredInt (requestOf (pageBag 0.5)) "page" = (0, None).
Proof.
  apply (proj2 (requiredInt_success_inv (requestOf (pageBag 0.5)) "page")
           0.5%float); reflexivity.
Defined.

(** X7. With the default 0, [optionalIntParamWithDefault] is
    [optionalIntParam]. *)
Theorem withDefault_zero_is_optionalIntParam (r : CallToolRequest) (p : string) :
  optionalIntParamWithDefault r p 0 = optionalIntParam r p.
Proof.
  unfold optionalIntParamWithDefault.
  destruct (optionalIntParam r p) as [v [e|]] eqn:Ho.
  - unfold optionalIntParam in Ho.
    destruct (optionalParam (T := float64) r p) as [f [e'|]];
      [|discriminate]. now injection Ho as <- <-.
  - destruct (Z.eqb_spec v 0) as [->|_]; reflexivity.
Qed.

(** X8. With a default other than 0, [optionalIntParamWithDefault] never
    succeeds with 0: a successful result is the default, or the non-zero
    conversion of a stored Number. *)
Theorem withDefault_success_inv (r : CallToolRequest) (p : string) (d z : Z) :
  optionalIntParamWithDefault r p d = (z, None) ->
  (d <> 0 -> z <> 0) /\
  (z = d \/
   exists f, present r p (VNumber f) /\ z = int_of_float64 f /\ z <> 0).
Proof.
  unfold optionalIntParamWithDefault.
  destruct (optionalIntParam r p) as [v [e|]] eqn:Ho; [discriminate|].
  destruct (Z.eqb_spec v 0) as [->|Hv]; intros [= <-].
  - split; [tauto|]. now left.
  - split; [tauto|]. right.
    unfold optionalIntParam, optionalParam in Ho.
    destruct (Arguments (Params r) !! p) as [w|] eqn:Hw; simpl in Ho.
    + destruct w; simpl in Ho; try discriminate.
      injection Ho as <-. exists f. auto.
    + injection Ho as <-. now destruct Hv.
Qed.

Lemma withDefault_success_inv_witness :
  (30 <> 0 -> 3 <> 0) /\
  (3 = 30 \/
   exists f, present (requestOf (pageBag 3.7)) "page" (VNumber f) /\
             3 = int_of_float64 f /\ 3 <> 0).
Proof.
  apply (withDefault_success_inv (requestOf (pageBag 3.7)) "page" 30 3).
  reflexivity.
Defined.

(** X9. [optionalStringArrayParam] succeeds in three cases only: the name
    is absent and the result is empty, or a [[]string] is stored and is the
    result, or a [[]interface{}] is stored whose elements are exactly the
    result's strings, in order. *)
Theorem optionalStringArrayParam_success_inv
    (r : CallToolRequest) (p : string) (l : list string) :
  optionalStringArrayParam r p = (l, None) ->
  (absent r p /\ l = []) \/
  present r p (VStrings l) \/
  present r p (VArray (VString <$> l)).
Proof.
  unfold optionalStringArrayParam, absent, present.
  destruct (Arguments (Params r) !! p) as [v|].
  - destruct v as [| | | |l'|vs|]; try discriminate.
    + intros [= ->]. right. now left.
    + intros Hc. right. right.
      destruct (coerceElements_success p vs [] l Hc) as [strs [-> ->]].
      reflexivity.
  - intros [= <-]. now left.
Qed.

Lemma optionalStringArrayParam_success_inv_witness :
  (absent (requestOf (labelsBag (VArray [VString "a"; VString "b"]))) "labels"
     /\ ["a"; "b"] = []) \/
  present (requestOf (labelsBag (VArray [VString "a"; VString "b"]))) "labels"
    (VStrings ["a"; "b"]) \/
  present (requestOf (labelsBag (VArray [VString "a"; VString "b"]))) "labels"
    (VArray (VString <$> ["a"; "b"])).
Proof.
  apply (optionalStringArrayParam_success_inv
           (requestOf (labelsBag (VArray [VString "a"; VString "b"])))
           "labels" ["a"; "b"]).
  reflexivity.
Defined.

(** X10. In a [[]interface{}] the first element that is not a string stops
    the loop: the error names that element's type, whatever follows it. *)
Theorem optionalStringArrayParam_first_offender
    (r : CallToolRequest) (p : string) (pre : list string) (v : value)
    (rest : list value) :
  present r p (VArray ((VString <$> pre) ++ v :: rest)) ->
  isString v = false ->
  optionalStringArrayParam r p
  = ([], Some (errNotOfTypeIs p "string" (dynType v))).
Proof.
  unfold present, optionalStringArrayParam. intros -> Hv.
  now apply coerceElements_first_offender.
Qed.

Lemma optionalStringArrayParam_first_offender_witness :
  optionalStringArrayParam
    (requestOf (labelsBag (VArray [VString "a"; VBool true; VNumber 1])))
    "labels"
  = ([], Some (errNotOfTypeIs "labels" "string" "bool")).
Proof.
  apply (optionalStringArrayParam_first_offender
           (requestOf (labelsBag (VArray [VString "a"; VBool true; VNumber 1])))
           "labels" ["a"] (VBool true) [VNumber 1]); reflexivity.
Defined.

(** * Further properties of the registry *)

Lemma Split_not_nil s sep : Split s sep <> [].
Proof.
  destruct s as [|c s]; simpl; [discriminate|].
  destruct (Ascii.eqb c sep); [discriminate|].
  destruct (Split s sep); discriminate.
Qed.

Lemma foldl_insert_true_lookup (TrimSpace : string -> string)
    (l : list string) (m : gmap string bool) (k : string) :
  foldl (fun list tool => <[TrimSpace tool := true]> list) m l !! k
  = if decide (k ∈ TrimSpace <$> l) then Some true else m !! k.
Proof.
  revert m. induction l as [|tool l IH]; intros m; cbn [foldl].
  - rewrite fmap_nil.
    destruct (decide (k ∈ [])) as [Hin|_]; [inversion Hin|reflexivity].
  - rewrite IH. rewrite fmap_cons.
    destruct (decide (k ∈ TrimSpace <$> l)) as [Hin|Hnin].
    + rewrite decide_True; [reflexivity|]. now apply list_elem_of_further.
    + destruct (decide (k = TrimSpace tool)) as [->|Hne].
      * rewrite lookup_insert_eq.
        rewrite decide_True; [reflexivity|]. apply list_elem_of_here.
      * rewrite lookup_insert_ne by congruence.
        rewrite decide_False; [reflexivity|].
        intros [?|?]%elem_of_cons; contradiction.
Qed.

Lemma parseToolList_lookup (TrimSpace : string -> string) (toolList k : string) :
  parseToolList TrimSpace toolList !! k
  = if String.eqb toolList "" then None
    else if decide (k ∈ TrimSpace <$> Split toolList ","%char) then Some true
    else None.
Proof.
  unfold parseToolList. destruct (String.eqb toolList ""); [apply lookup_empty|].
  rewrite foldl_insert_true_lookup.
  destruct (decide _); [reflexivity|apply lookup_empty].
Qed.

Lemma parseToolList_not_empty (TrimSpace : string -> string) (toolList : string) :
  toolList <> "" -> (0 <? size (parseToolList TrimSpace toolList))%nat = true.
Proof.
  intros Hne. rewrite len_positive. apply negb_true_iff, bool_decide_eq_false.
  destruct (Split toolList ","%char) as [|piece pieces] eqn:Hs;
    [now apply Split_not_nil in Hs|].
  intros Hd. apply (not_elem_of_empty (C := gset string) (TrimSpace piece)).
  rewrite <- Hd. apply elem_of_dom. exists true.
  rewrite parseToolList_lookup, Hs.
  apply String.eqb_neq in Hne. rewrite Hne.
  rewrite decide_True; [reflexivity|]. rewrite fmap_cons. apply list_elem_of_here.
Qed.

Lemma filter_filter_and {A : Type} (P Q : A -> bool) (l : list A) :
  List.filter P (List.filter Q l) = List.filter (fun x => P x && Q x) l.
Proof.
  induction l as [|x l IH]; simpl; [reflexivity|].
  destruct (Q x); simpl.
  - rewrite andb_true_r. destruct (P x); now rewrite IH.
  - now rewrite andb_false_r.
Qed.

Lemma filter_length_le {A : Type} (P Q : A -> bool) (l : list A) :
  (forall x, P x = true -> Q x = true) ->
  (length (List.filter P l) <= length (List.filter Q l))%nat.
Proof.
  intros HPQ. induction l as [|x l IH]; simpl; [lia|].
  destruct (P x) eqn:HP.
  - rewrite (HPQ x HP). simpl. lia.
  - destruct (Q x); simpl; lia.
Qed.

Lemma index_parseToolList (TrimSpace : string -> string) (toolList k : string) :
  index (parseToolList TrimSpace toolList) k = true <->
  toolList <> "" /\ k ∈ TrimSpace <$> Split toolList ","%char.
Proof.
  unfold index. rewrite parseToolList_lookup.
  destruct (String.eqb_spec toolList "") as [->|Hne]; simpl.
  - split; [discriminate|]. now intros [[] _].
  - destruct (decide _) as [Hin|Hnin]; simpl; split;
      try tauto; try discriminate.
Qed.

Lemma shouldIncludeTool_include_string (TrimSpace : string -> string)
    (includeTools : string) (excludeList : gmap string bool) (name : string) :
  includeTools <> "" ->
  shouldIncludeTool excludeList (parseToolList TrimSpace includeTools) name
  = bool_decide (name ∈ TrimSpace <$> Split includeTools ","%char).
Proof.
  intros Hne. unfold shouldIncludeTool.
  rewrite (parseToolList_not_empty TrimSpace includeTools Hne).
  destruct (bool_decide_reflect (name ∈ TrimSpace <$> Split includeTools ","%char))
    as [Hin|Hnin].
  - apply index_parseToolList. auto.
  - apply not_true_is_false. intros Hi. apply index_parseToolList in Hi. tauto.
Qed.

(** X11. An entry of a tool list is set exactly for the trimmed pieces of a
    non-empty comma-separated string: the empty string gives the empty
    list, and any other string gives a list that is not empty, so that the
    include list of a non-empty [includeTools] always takes over. *)
Theorem parseToolList_entries
    (TrimSpace : string -> string) (toolList : string) :
  (forall k, index (parseToolList TrimSpace toolList) k = true <->
     toolList <> "" /\ k ∈ TrimSpace <$> Split toolList ","%char) /\
  (toolList = "" -> parseToolList TrimSpace toolList = ∅) /\
  (toolList <> "" ->
     forall excludeList name,
       shouldIncludeTool excludeList (parseToolList TrimSpace toolList) name
       = bool_decide (name ∈ TrimSpace <$> Split toolList ","%char)).
Proof.
  split; [intros k; apply index_parseToolList|]. split.
  - intros ->. reflexivity.
  - intros Hne excludeList name. now apply shouldIncludeTool_include_string.
Qed.

Lemma parseToolList_entries_witness :
  index (parseToolList trimAsciiSpace " get_me ,list_commits") "get_me" = true.
Proof.
  apply (proj1 (parseToolList_entries trimAsciiSpace " get_me ,list_commits")).
  split; [discriminate|]. vm_compute. apply list_elem_of_here.
Defined.

(** X12. A non-empty [includeTools] whose pieces are all blank exposes only
    the empty name: when every tool has a name, [NewServer] registers no
    tool at all, whatever the exclude list and the read-only flag. *)
Theorem blank_include_list_hides_every_tool
    (TrimSpace : string -> string) (otherNames : Operation -> string)
    (readOnly : bool) (excludeTools includeTools : string) :
  includeTools <> "" ->
  (forall piece, piece ∈ Split includeTools ","%char -> TrimSpace piece = "") ->
  (forall tool, Name otherNames tool <> "") ->
  tools (NewServer TrimSpace otherNames readOnly excludeTools includeTools) = [].
Proof.
  intros Hne Hblank Hnames. rewrite NewServer_tools.
  induction catalog as [|tool l IH]; simpl; [reflexivity|].
  assert (Hg : gate TrimSpace otherNames excludeTools includeTools readOnly tool
               = false).
  { unfold gate. apply andb_false_iff. right.
    rewrite (shouldIncludeTool_include_string TrimSpace includeTools _ _ Hne).
    apply bool_decide_eq_false.
    intros [piece [Hn Hin]]%list_elem_of_fmap.
    apply (Hnames tool). rewrite Hn. now apply Hblank. }
  rewrite Hg. exact IH.
Qed.

Lemma blank_include_list_hides_every_tool_witness :
  tools (NewServer trimAsciiSpace sampleNames false "" " , ") = [].
Proof.
  apply blank_include_list_hides_every_tool.
  - discriminate.
  - intros piece Hin. vm_compute in Hin.
    repeat (apply elem_of_cons in Hin as [->|Hin]; [reflexivity|]).
    inversion Hin.
  - intros []; discriminate.
Defined.

(** X13. An operation outside the [if !readOnly] blocks is registered
    exactly when the filter exposes its name, in read-only mode or not;
    [getMe], whose tool is named [get_me] in this file, is registered
    exactly when [get_me] is exposed. *)
Theorem read_operations_ignore_readOnly
    (TrimSpace : string -> string) (otherNames : Operation -> string)
    (readOnly : bool) (excludeTools includeTools : string) :
  let s := NewServer TrimSpace otherNames readOnly excludeTools includeTools in
  let exposed := shouldIncludeTool (parseToolList TrimSpace excludeTools)
                   (parseToolList TrimSpace includeTools) in
  (forall tool, mutating tool = false ->
     (tool ∈ tools s <-> exposed (Name otherNames tool) = true)) /\
  (getMe ∈ tools s <-> exposed "get_me" = true).
Proof.
  intros s exposed.
  assert (Hread : forall tool, mutating tool = false ->
            (tool ∈ tools s <-> exposed (Name otherNames tool) = true)).
  { intros tool Hm. subst s exposed. rewrite NewServer_registers. unfold gate.
    rewrite Hm. reflexivity. }
  split; [exact Hread|]. exact (Hread getMe eq_refl).
Qed.

Lemma read_operations_ignore_readOnly_witness :
  getMe ∈ tools (NewServer trimAsciiSpace sampleNames true "create_issue" "").
Proof.
  apply (proj2 (read_operations_ignore_readOnly trimAsciiSpace sampleNames true
                  "create_issue" "")).
  reflexivity.
Defined.

(** X14. The read-only server registers the tools of the server built
    from the same lists without the flag, minus the mutating ones, in the
    same order; it never registers more than 17 tools, and no server
    registers more than 29. *)
Theorem readOnly_server_is_a_restriction
    (TrimSpace : string -> string) (otherNames : Operation -> string)
    (excludeTools includeTools : string) :
  let full := NewServer TrimSpace otherNames false excludeTools includeTools in
  let ro := NewServer TrimSpace otherNames true excludeTools includeTools in
  tools ro = List.filter (fun tool => negb (mutating tool)) (tools full) /\
  sublist (tools ro) (tools full) /\
  (length (tools ro) <= 17)%nat /\
  (length (tools full) <= 29)%nat.
Proof.
  intros full ro.
  assert (Hro : tools ro
                = List.filter (fun tool => negb (mutating tool)) (tools full)).
  { subst full ro. rewrite !NewServer_tools, filter_filter_and.
    apply filter_ext_all. intros tool. unfold gate.
    destruct (mutating tool); simpl; [reflexivity|].
    now destruct (shouldIncludeTool _ _ _). }
  split; [exact Hro|]. split; [rewrite Hro; apply filter_sublist_of|]. split.
  - rewrite Hro. subst full. rewrite NewServer_tools, filter_filter_and.
    change 17%nat
      with (length (List.filter (fun tool => negb (mutating tool)) catalog)).
    apply filter_length_le. intros tool [Hm _]%andb_true_iff. exact Hm.
  - subst full. rewrite NewServer_tools.
    change 29%nat with (length (List.filter (fun _ => true) catalog)).
    apply filter_length_le. reflexivity.
Qed.

(** X15. No configuration touches the resource templates or the server's
    identity: [NewServer] always registers the same five templates, in the
    same order, on a server named [github-mcp-server], version [0.0.1]. *)
Theorem resources_are_always_registered
    (TrimSpace : string -> string) (otherNames : Operation -> string)
    (readOnly : bool) (excludeTools includeTools : string) :
  let s := NewServer TrimSpace otherNames readOnly excludeTools includeTools in
  resourceTemplates s
  = [ getRepositoryResourceContent; getRepositoryResourceBranchContent;
      getRepositoryResourceCommitContent; getRepositoryResourceTagContent;
      getRepositoryResourcePrContent ] /\
  serverName s = "github-mcp-server" /\
  serverVersion s = "0.0.1".
Proof.
  intros s. subst s. rewrite NewServer_fields. simpl.
  repeat split; reflexivity.
Qed.

(** X16. With both lists empty every operation passes the filter:
    [NewServer] registers the whole catalog, and in read-only mode the
    catalog without its mutating operations. *)
Theorem empty_lists_expose_the_catalog
    (TrimSpace : string -> string) (otherNames : Operation -> string)
    (readOnly : bool) :
  tools (NewServer TrimSpace otherNames readOnly "" "")
  = (if readOnly then List.filter (fun tool => negb (mutating tool)) catalog
     else catalog) /\
  length (tools (NewServer TrimSpace otherNames readOnly "" ""))
  = (if readOnly then 17 else 29)%nat.
Proof.
  assert (Ht : tools (NewServer TrimSpace otherNames readOnly "" "")
               = if readOnly
                 then List.filter (fun tool => negb (mutating tool)) catalog
                 else catalog).
  { rewrite NewServer_tools.
    assert (Hg : forall tool,
              gate TrimSpace otherNames "" "" readOnly tool
              = (negb (mutating tool) || negb readOnly)).
    { intros tool. unfold gate, shouldIncludeTool, parseToolList, index. simpl.
      rewrite map_size_empty, lookup_empty. simpl. apply andb_true_r. }
    rewrite (filter_ext_all _ _ catalog Hg).
    destruct readOnly.
    - apply filter_ext_all. intros tool. apply orb_false_r.
    - rewrite (filter_ext_all _ (fun _ => true)).
      + reflexivity.
      + intros tool. apply orb_true_r. }
  split; [exact Ht|]. rewrite Ht. now destruct readOnly.
Qed.

Lemma Join_cons_head (c : Ascii.ascii) (h : string) (t : list string)
    (sep : Ascii.ascii) :
  Join (String c h :: t) sep = String c (Join (h :: t) sep).
Proof. destruct t; reflexivity. Qed.

Lemma Count_zero_not_Contains s sep : Count s sep = 0%nat -> Contains s sep = false.
Proof. unfold Contains. now intros ->. Qed.

(** X17. Splitting a tool list at the commas loses nothing: the pieces
    joined by commas are the list again, there is one more piece than there
    are commas, and no piece contains a comma. *)
Theorem Split_pieces (s : string) (sep : Ascii.ascii) :
  Join (Split s sep) sep = s /\
  length (Split s sep) = S (Count s sep) /\
  Forall (fun piece => Contains piece sep = false) (Split s sep).
Proof.
  induction s as [|c s [IHj [IHl IHf]]]; simpl.
  - repeat split. constructor; [reflexivity|constructor].
  - destruct (Ascii.eqb c sep) eqn:Hc.
    + apply Ascii.eqb_eq in Hc as ->.
      destruct (Split s sep) as [|h t] eqn:Hs; [now apply Split_not_nil in Hs|].
      split; [simpl; now rewrite <- IHj|].
      split; [simpl in *; lia|]. constructor; [reflexivity|exact IHf].
    + destruct (Split s sep) as [|h t] eqn:Hs; [now apply Split_not_nil in Hs|].
      split; [now rewrite Join_cons_head, IHj|].
      split; [exact IHl|].
      inversion IHf as [|? ? Hh Ht]; subst. constructor; [|exact Ht].
      unfold Contains in *. simpl. now rewrite Hc.
Qed.

(** * Properties of [isAcceptedError] and of the handler of [getMe] *)


Section GetMeProperties.

Context {User Body : Type}.
Implicit Types (w : Collaborators User Body) (req : CallToolRequest).

(** X19. The handler returns a result or an error, never both and never
    neither.  A result is flagged as a tool error exactly when the response
    status was not 200, and carries one text content: the response body
    after "failed to get user: " for a tool error, the marshalled user
    otherwise. *)
Theorem getMe_handler_result_xor_error w req :
  match (getMe_handler w req).1 with
  | (Some res, None) =>
      exists user resp,
        Users_Get w "" = inr (user, resp) /\
        IsError res = negb (StatusCode resp =? StatusOK) /\
        Content res
        = [ {| contentType := "text";
               Text := if StatusCode resp =? StatusOK
                       then (Marshal w user).1
                       else "failed to get user: " +:+ (ReadAll w (RespBody resp)).1 |} ]
  | (None, Some e) => True
  | _ => False
  end.
Proof.
  unfold getMe_handler.
  destruct (Users_Get w "") as [err|[user resp]]; simpl; [exact I|].
  destruct (StatusCode resp =? StatusOK) eqn:Hs; simpl.
  - destruct (Marshal w user) as [r [err|]] eqn:Hm; simpl; [exact I|].
    exists user, resp. rewrite Hs, Hm. repeat split.
  - destruct (ReadAll w (RespBody resp)) as [body [err|]] eqn:Hr; simpl;
      [exact I|].
    exists user, resp. rewrite Hs, Hr. repeat split.
Qed.

(** X20. An error returned by the handler wraps, one layer deep, the
    error of the collaborator that failed: [client.Users.Get], or
    [io.ReadAll] after a status other than 200, or [json.Marshal] after
    status 200.  Its text is the collaborator's text after a "failed to"
    prefix, and [isAcceptedError] answers for it as for the collaborator's
    error. *)
Theorem getMe_handler_error_provenance w req (e : GoError) :
  (getMe_handler w req).1.2 = Some e ->
  exists prefix inner,
    e = wrapError (prefix +:+ errorText inner) inner /\
    isAcceptedError (Some e) = isAcceptedError (Some inner) /\
    ((prefix = "failed to get user: " /\ Users_Get w "" = inl inner) \/
     exists user resp, Users_Get w "" = inr (user, resp) /\
       ((prefix = "failed to read response body: " /\
         StatusCode resp <> StatusOK /\
         (ReadAll w (RespBody resp)).2 = Some inner) \/
        (prefix = "failed to marshal user: " /\
         StatusCode resp = StatusOK /\
         (Marshal w user).2 = Some inner))).
Proof.
  unfold getMe_handler.
  destruct (Users_Get w "") as [err|[user resp]] eqn:Hg; simpl.
  - intros [= <-]. exists "failed to get user: ", err. auto.
  - destruct (Z.eqb_spec (StatusCode resp) StatusOK) as [Hs|Hs]; simpl.
    + destruct (Marshal w user) as [r [err|]] eqn:Hm; simpl; [|discriminate].
      intros [= <-]. exists "failed to marshal user: ", err.
      split; [reflexivity|]. split; [reflexivity|].
      right. exists user, resp. split; [reflexivity|]. right.
      rewrite Hm. auto.
    + destruct (ReadAll w (RespBody resp)) as [body [err|]] eqn:Hr; simpl;
        [|discriminate].
      intros [= <-]. exists "failed to read response body: ", err.
      split; [reflexivity|]. split; [reflexivity|].
      right. exists user, resp. split; [reflexivity|]. left.
      rewrite Hr. auto.
Qed.

(** X21. Once [client.Users.Get] has succeeded the handler closes the
    response body exactly once, as its last call, also when reading the
    body or marshalling the user fails; it reads the body only for a status
    other than 200 and marshals the user only for status 200.  When
    [client.Users.Get] fails, the handler makes no other call. *)
Theorem getMe_handler_calls w req :
  (forall err, Users_Get w "" = inl err ->
     (getMe_handler w req).2 = [CallUsersGet ""]) /\
  (forall user resp, Users_Get w "" = inr (user, resp) ->
     (getMe_handler w req).2
     = [ CallUsersGet "";
         if StatusCode resp =? StatusOK then CallMarshal user
         else CallReadAll (RespBody resp);
         CallClose (RespBody resp) ] /\
     length (List.filter isClose (getMe_handler w req).2) = 1%nat /\
     last (getMe_handler w req).2 = Some (CallClose (RespBody resp))).
Proof.
  unfold getMe_handler. split.
  - intros err ->. reflexivity.
  - intros user resp ->.
    destruct (StatusCode resp =? StatusOK); simpl.
    + destruct (Marshal w user) as [r [err|]]; simpl; auto.
    + destruct (ReadAll w (RespBody resp)) as [body [err|]]; simpl; auto.
Qed.

End GetMeProperties.

Lemma getMe_handler_error_provenance_witness :
  exists prefix inner,
    wrapError "failed to marshal user: unsupported type"
      (leafError false "unsupported type")
    = wrapError (prefix +:+ errorText inner) inner /\
    isAcceptedError
      (Some (wrapError "failed to marshal user: unsupported type"
               (leafError false "unsupported type")))
    = isAcceptedError (Some inner) /\
    ((prefix = "failed to get user: "
      /\ Users_Get (sampleWorld false 200 true) "" = inl inner) \/
     exists user resp,
       Users_Get (sampleWorld false 200 true) "" = inr (user, resp) /\
       ((prefix = "failed to read response body: " /\
         StatusCode resp <> StatusOK /\
         (ReadAll (sampleWorld false 200 true) (RespBody resp)).2 = Some inner) \/
        (prefix = "failed to marshal user: " /\
         StatusCode resp = StatusOK /\
         (Marshal (sampleWorld false 200 true) user).2 = Some inner))).
Proof.
  apply (getMe_handler_error_provenance (sampleWorld false 200 true)
           (requestOf ∅)).
  reflexivity.
Defined.

Lemma getMe_handler_calls_witness :
  (getMe_handler (sampleWorld false 204 false) (requestOf ∅)).2
  = [ CallUsersGet ""; CallReadAll "No Content"; CallClose "No Content" ]
  /\ (getMe_handler (sampleWorld true 204 false) (requestOf ∅)).2
     = [ CallUsersGet "" ].
Proof.
  split.
  - apply (proj2 (getMe_handler_calls (sampleWorld false 204 false) (requestOf ∅))
             "octocat" {| StatusCode := 204; RespBody := "No Content" |}).
    reflexivity.
  - apply (proj1 (getMe_handler_calls (sampleWorld true 204 false) (requestOf ∅))
             (leafError true "job scheduled on GitHub side")).
    reflexivity.
Defined.

Example getMe_handler_examples :
  (getMe_handler (sampleWorld false 200 false) (requestOf ∅)).1
    = (Some (NewToolResultText "{login:octocat}"), None) /\
  (getMe_handler (sampleWorld false 204 false) (requestOf ∅)).1
    = (Some (NewToolResultError "failed to get user: No Content"), None) /\
  (getMe_handler (sampleWorld true 200 false) (requestOf ∅)).1
    = (None, Some (wrapError "failed to get user: job scheduled on GitHub side"
                     (leafError true "job scheduled on GitHub side"))) /\
  isAcceptedError (getMe_handler (sampleWorld true 200 false) (requestOf ∅)).1.2
    = true.
Proof. repeat split; reflexivity. Qed.
